(** * Items-Booking: the landscape photo sheet generator ([items_app.py])

    The program lays uploaded photos out two per batch on landscape A4
    sheets: a header row (label cell and a "Notes / Data" cell), then one
    row per photo made of a bordered 80 x 90 mm image box and a 190 x 90 mm
    data cell.  It drives three libraries: FPDF (drawing), Pillow (image
    decoding) and Streamlit (the page with the upload widget and the
    download button).

    The development embeds
    - the part of the FPDF object the program drives (cursor, margins,
      automatic page break, the page contents as a list of drawing
      operations);
    - [class PDF(FPDF)] with its [header] and [footer] overrides;
    - [generate_pdf], statement by statement, in a monad that threads the
      file system (temporary files) and propagates Python exceptions;
    - the Streamlit script, as the list of widgets it writes.

    Lengths are whole millimetres in [Z] (the document is created with
    [unit='mm'] and every length the program passes is an integer).

    The FPDF methods follow the library: [add_page] closes the page being
    written with its footer and puts the cursor at the top-left margin;
    [cell] draws at the cursor and moves it right by the cell's width;
    "if automatic page breaking is enabled and the cell goes beyond the
    limit, a page break is done before outputting" (the limit is the
    sheet's height less the bottom margin, and the mode is on unless
    [set_auto_page_break] switches it off, which the program never
    calls); [rect] and [image] with both coordinates given draw where
    they are told and never break the page. *)

From Stdlib Require Import ZArith Lia.
From stdpp Require Import base option list strings gmap pretty.

(** ** Python results: a value or a raised exception *)

(** An exception is represented by its message, [str(e)], which is all
    the script ever reads from it. *)
Definition Exception := string.

Inductive result (A : Type) : Type :=
| Ok (a : A)
| Raise (e : Exception).
Arguments Ok {A} a.
Arguments Raise {A} e.

Definition result_map {A B} (f : A -> B) (r : result A) : result B :=
  match r with
  | Ok a => Ok (f a)
  | Raise e => Raise e
  end.

Definition is_ok {A} (r : result A) : bool :=
  match r with Ok _ => true | Raise _ => false end.

(** ** Text *)

(** A Python [str] is held as the bytes of its UTF-8 form, one character
    of the Rocq string per byte.  [latin1 s] tells whether
    [s.encode('latin1')] succeeds, that is whether every code point of [s]
    is below 256: in UTF-8, every byte is an ASCII byte, or a byte C2 or C3
    followed by one continuation byte. *)
Fixpoint latin1 (s : string) : bool :=
  match s with
  | EmptyString => true
  | String c r =>
      let n := Ascii.N_of_ascii c in
      if (n <? 128)%N then latin1 r
      else if (n =? 194)%N || (n =? 195)%N then
        match r with
        | String c' r' =>
            let n' := Ascii.N_of_ascii c' in
            (128 <=? n')%N && (n' <? 192)%N && latin1 r'
        | EmptyString => false
        end
      else false
  end.

(** ** Pillow images and files *)

Inductive Mode := L | LA | P | RGB | RGBA | CMYK.

Definition has_alpha (m : Mode) : bool :=
  match m with LA | RGBA => true | _ => false end.

(** Pixel data after conversion to three 8-bit bands. *)
Definition Raster := list (N * N * N).

(** What [Image.open] returns: the image is opened lazily, so the header
    (mode and size) is known while decoding the pixel data, which
    [convert] triggers, may still fail.  [im_rgb] is the outcome of that
    decoding-and-conversion for this image. *)
Record PILImage := {
  im_mode : Mode;
  im_size : N * N;
  im_rgb : result Raster
}.

(** An uploaded file, seen through the one thing the program does with
    it: [Image.open(img_file)], which raises on bytes that are not an
    image. *)
Record UploadedFile := {
  up_name : string;
  up_open : result PILImage
}.

(** A JPEG file as FPDF's parser reads it back. *)
Record JpegInfo := {
  jpg_mode : Mode;
  jpg_size : N * N;
  jpg_data : list N
}.

Inductive DrawOp :=
| OpCell (x y w h : Z) (txt : string) (border : bool) (align : string)
| OpRect (x y w h : Z)
| OpImage (x y w h : Z) (info : JpegInfo).

Definition Page := list DrawOp.

Inductive File :=
| EmptyFile
| JpegFile (info : JpegInfo)
| PdfFile (doc : list Page).

(** The text an operation puts into the page's content. *)
Definition op_text (op : DrawOp) : string :=
  match op with
  | OpCell _ _ _ _ txt _ _ => txt
  | _ => EmptyString
  end.

Definition page_latin1 (p : Page) : bool :=
  forallb (fun op => latin1 (op_text op)) p.

(** ** The FPDF object *)

Module FPDF.
Local Open Scope Z_scope.

Record t := mk {
  page_w : Z;                 (* self.w *)
  page_h : Z;                 (* self.h *)
  l_margin : Z;
  t_margin : Z;
  r_margin : Z;
  b_margin : Z;
  auto_page_break : bool;
  page_break_trigger : Z;
  cur_x : Z;                  (* self.x *)
  cur_y : Z;                  (* self.y *)
  lasth : Z;
  in_footer : bool;
  font : option (string * string * Z);
  pages : list Page           (* self.pages; self.page is its length *)
}.

Definition with_xy (x y : Z) (s : t) : t :=
  mk (page_w s) (page_h s) (l_margin s) (t_margin s) (r_margin s)
     (b_margin s) (auto_page_break s) (page_break_trigger s)
     x y (lasth s) (in_footer s) (font s) (pages s).

Definition with_lasth (h : Z) (s : t) : t :=
  mk (page_w s) (page_h s) (l_margin s) (t_margin s) (r_margin s)
     (b_margin s) (auto_page_break s) (page_break_trigger s)
     (cur_x s) (cur_y s) h (in_footer s) (font s) (pages s).

Definition with_in_footer (b : bool) (s : t) : t :=
  mk (page_w s) (page_h s) (l_margin s) (t_margin s) (r_margin s)
     (b_margin s) (auto_page_break s) (page_break_trigger s)
     (cur_x s) (cur_y s) (lasth s) b (font s) (pages s).

Definition with_font (f : option (string * string * Z)) (s : t) : t :=
  mk (page_w s) (page_h s) (l_margin s) (t_margin s) (r_margin s)
     (b_margin s) (auto_page_break s) (page_break_trigger s)
     (cur_x s) (cur_y s) (lasth s) (in_footer s) f (pages s).

Definition with_pages (ps : list Page) (s : t) : t :=
  mk (page_w s) (page_h s) (l_margin s) (t_margin s) (r_margin s)
     (b_margin s) (auto_page_break s) (page_break_trigger s)
     (cur_x s) (cur_y s) (lasth s) (in_footer s) (font s) ps.

(** [FPDF(orientation='L', unit='mm', format='A4')]: the sheet is
    297 x 210, all margins start at 1 cm and the automatic page break is
    switched on with a bottom margin of twice that.  (The library derives
    these from point sizes, 595.28 pt / k = 210.0016 and
    2 * 28.35 pt / k = 20.0025; they are taken to the millimetre here.
    The ordinates the program's cells reach are 20, 110 and 200, so every
    comparison with the trigger comes out the same.) *)
Definition default_margin : Z := 10.

Definition new_L_mm_A4 : t :=
  mk 297 210 default_margin default_margin default_margin
     (2 * default_margin) true (210 - 2 * default_margin)
     0 0 0 false None [].

(** [set_margins(left, top, right)]: the bottom margin and the page-break
    trigger are not touched. *)
Definition set_margins (left top right : Z) (s : t) : t :=
  mk (page_w s) (page_h s) left top right
     (b_margin s) (auto_page_break s) (page_break_trigger s)
     (cur_x s) (cur_y s) (lasth s) (in_footer s) (font s) (pages s).

Definition set_auto_page_break (auto : bool) (margin : Z) (s : t) : t :=
  mk (page_w s) (page_h s) (l_margin s) (t_margin s) (r_margin s)
     margin auto (page_h s - margin)
     (cur_x s) (cur_y s) (lasth s) (in_footer s) (font s) (pages s).

Definition page_no (s : t) : nat := length (pages s).

Definition get_x (s : t) : Z := cur_x s.
Definition get_y (s : t) : Z := cur_y s.

Definition set_x (x : Z) (s : t) : t :=
  with_xy (if 0 <=? x then x else page_w s + x) (cur_y s) s.

(** [set_y] also sends the cursor back to the left margin; a negative
    ordinate counts from the bottom of the sheet. *)
Definition set_y (y : Z) (s : t) : t :=
  with_xy (l_margin s) (if 0 <=? y then y else page_h s + y) s.

Definition set_xy (x y : Z) (s : t) : t := set_x x (set_y y s).

Definition set_font (family style : string) (size : Z) (s : t) : t :=
  with_font (Some (family, style, size)) s.

(** [_out]: append to the page being written (nothing is drawn while no
    page is open). *)
Fixpoint out_page (ps : list Page) (op : DrawOp) : list Page :=
  match ps with
  | [] => []
  | [p] => [p ++ [op]]
  | p :: ps' => p :: out_page ps' op
  end.

Definition out (op : DrawOp) (s : t) : t :=
  with_pages (out_page (pages s) op) s.

(** [ln()]: back to the left margin, down by the height of the last
    cell. *)
Definition ln (s : t) : t :=
  with_xy (l_margin s) (cur_y s + lasth s) s.

Definition rect (x y w h : Z) (s : t) : t := out (OpRect x y w h) s.

(** [cell(w, h, txt, border, ln=0, align)].  [add_page] is what
    [self.add_page(self.cur_orientation)] does on the object at hand; it
    is taken as an argument because the class that overrides [footer]
    fixes it.  The cell is drawn at the cursor {e after} the page-break
    test; afterwards the cursor moves right by the cell's width. *)
Definition cell_in (add_page : t -> t)
    (w h : Z) (txt : string) (border : bool) (align : string) (s : t) : t :=
  let s :=
    if (cur_y s + h >? page_break_trigger s)
         && negb (in_footer s) && auto_page_break s
    then let x := cur_x s in
         let s := add_page s in
         with_xy x (cur_y s) s
    else s in
  let w := if w =? 0 then page_w s - r_margin s - cur_x s else w in
  let s :=
    if border || negb (String.eqb txt "")
    then out (OpCell (cur_x s) (cur_y s) w h txt border align) s
    else s in
  let s := with_lasth h s in
  with_xy (cur_x s + w) (cur_y s) s.

(** [_beginpage]: a fresh empty page, cursor at the top-left margin, no
    font selected. *)
Definition beginpage (s : t) : t :=
  with_font None
    (with_xy (l_margin s) (t_margin s) (with_pages (pages s ++ [[]]) s)).

Definition restore_font (saved : option (string * string * Z)) (s : t) : t :=
  match saved with
  | Some f => with_font (Some f) s
  | None => s
  end.

(** [add_page()]: when a page is open, its footer is drawn first (with
    [in_footer] raised) and the page is closed; then the new page
    starts, [header] runs, and the font that was selected on entry is
    selected again. *)
Definition add_page_in (header footer : t -> t) (s : t) : t :=
  let saved := font s in
  let s :=
    if (0 <? page_no s)%nat
    then with_in_footer false (footer (with_in_footer true s))
    else s in
  let s := beginpage s in
  let s := restore_font saved s in
  let s := header s in
  restore_font saved s.

(** [image(name, x, y, w, h, type='JPG')] once the file has been parsed.
    Both coordinates are given, so this is not the flowing mode and no
    page break is tested.  A zero width or height would be derived from
    the pixel size (at 72 dpi when both are zero, else keeping the
    proportions). *)
Definition image_info (info : JpegInfo) (x y w h : Z) (s : t) : t :=
  let pw := Z.of_N (fst (jpg_size info)) in
  let ph := Z.of_N (snd (jpg_size info)) in
  let '(w, h) :=
    if (w =? 0) && (h =? 0) then (pw * 254 / 720, ph * 254 / 720)
    else if w =? 0 then (h * pw / ph, h)
    else if h =? 0 then (w, w * ph / pw)
    else (w, h) in
  out (OpImage x y w h info) s.

(** [close()]: a document without pages gets one, then the last page
    receives its footer. *)
Definition close_in (add_page footer : t -> t) (s : t) : t :=
  let s := if (page_no s =? 0)%nat then add_page s else s in
  with_in_footer false (footer (with_in_footer true s)).

End FPDF.

(** ** [class PDF(FPDF)] *)

Module PDF.
Import FPDF.
Local Open Scope Z_scope.

(** [header]: only selects the font; the table header is drawn by
    [generate_pdf] itself. *)
Definition header (self : t) : t := set_font "Arial" "B" 12 self.

(** [footer], over the [cell] method of the object. *)
Definition footer_in
    (cell : Z -> Z -> string -> bool -> string -> t -> t) (self : t) : t :=
  let self := set_y (-15) self in
  let self := set_font "Arial" "I" 8 self in
  cell 0 10 ("Page " +:+ pretty (page_no self)) false "C" self.

(** The methods refer to one another ([cell] may add a page, [add_page]
    draws the footer, [footer] draws a cell).  The footer only ever runs
    with [in_footer] raised, where [cell] cannot reach [add_page]; the
    definitions are tied at that point and [footer_calls_cell] below
    shows that [footer] is the source's method over the final [cell]. *)
Definition footer : t -> t := footer_in (cell_in (fun s => s)).
Definition add_page : t -> t := add_page_in header footer.
Definition cell : Z -> Z -> string -> bool -> string -> t -> t :=
  cell_in add_page.
Definition close : t -> t := close_in add_page footer.

Definition new : t := new_L_mm_A4.

End PDF.

(** ** The world outside the interpreter: files and exceptions *)

Record World := {
  files : gmap string File;
  tmp_counter : nat;                       (* names handed out so far *)
  jpeg_encode : PILImage -> list N         (* the JPEG encoder in use *)
}.

Definition M (A : Type) : Type := World -> result A * World.

Definition ret {A} (a : A) : M A := fun w => (Ok a, w).

Definition raise {A} (e : Exception) : M A := fun w => (Raise e, w).

Definition bind {A B} (c : M A) (k : A -> M B) : M B :=
  fun w =>
    match c w with
    | (Ok a, w') => k a w'
    | (Raise e, w') => (Raise e, w')
    end.

Definition lift {A} (r : result A) : M A := fun w => (r, w).

Declare Scope py_scope.
Delimit Scope py_scope with py.
Notation "x <- c ;; k" := (bind c (fun x => k))
  (at level 100, c at next level, right associativity) : py_scope.
Local Open Scope py_scope.

(** A [for] loop that updates one variable. *)
Fixpoint for_ {A S} (l : list A) (body : A -> S -> M S) (s : S) : M S :=
  match l with
  | [] => ret s
  | a :: l' => s' <- body a s ;; for_ l' body s'
  end.

Definition with_files (fs : gmap string File) (w : World) : World :=
  {| files := fs; tmp_counter := tmp_counter w;
     jpeg_encode := jpeg_encode w |}.

Definition tmp_name (k : nat) (suffix : string) : string :=
  "/tmp/tmp" +:+ pretty k +:+ suffix.

(** [tempfile.NamedTemporaryFile(delete=False, suffix=...)]: a new empty
    file that outlives the [with] block; the result is [tmp.name]. *)
Definition NamedTemporaryFile (suffix : string) : M string :=
  fun w =>
    let name := tmp_name (tmp_counter w) suffix in
    (Ok name,
     {| files := <[name := EmptyFile]> (files w);
        tmp_counter := S (tmp_counter w);
        jpeg_encode := jpeg_encode w |}).

Definition os_remove (path : string) : M unit :=
  fun w =>
    match files w !! path with
    | Some _ => (Ok tt, with_files (delete path (files w)) w)
    | None =>
        (Raise ("[Errno 2] No such file or directory: " +:+ path), w)
    end.

Definition read_file (path : string) : M File :=
  fun w =>
    match files w !! path with
    | Some f => (Ok f, w)
    | None =>
        (Raise ("[Errno 2] No such file or directory: " +:+ path), w)
    end.

Definition Image_open (img_file : UploadedFile) : M PILImage :=
  lift (up_open img_file).

(** [.convert('RGB')]: loads the pixel data (which may raise) and gives
    an image of mode RGB and the same size. *)
Definition convert_RGB (im : PILImage) : M PILImage :=
  r <- lift (im_rgb im) ;;
  ret {| im_mode := RGB; im_size := im_size im; im_rgb := Ok r |}.

(** What the JPEG writer accepts: a non-empty image of at most 65500
    pixels each way (the limit of the JPEG library). *)
Definition jpeg_max_dimension : N := 65500.

Definition jpeg_check (im : PILImage) : result unit :=
  let '(width, height) := im_size im in
  if ((width =? 0) || (height =? 0))%N
  then Raise "cannot write empty image as JPEG"
  else if ((jpeg_max_dimension <? width) || (jpeg_max_dimension <? height))%N
  then Raise "broken data stream when writing image file"
  else Ok tt.

(** [.save(path)] for a path ending in [.jpg]: the JPEG writer refuses
    the modes it cannot store (those with an alpha band or a palette) and
    the sizes it cannot encode; when it raises, the file that was opened
    for writing stays (what it holds by then is not modelled). *)
Definition save_jpg (im : PILImage) (path : string) : M unit :=
  match im_mode im with
  | L | RGB | CMYK =>
      _ <- lift (im_rgb im) ;;
      _ <- lift (jpeg_check im) ;;
      fun w =>
        (Ok tt,
         with_files
           (<[path := JpegFile {| jpg_mode := im_mode im;
                                  jpg_size := im_size im;
                                  jpg_data := jpeg_encode w im |}]>
              (files w)) w)
  | LA | P | RGBA => raise "cannot write this mode as JPEG"
  end.

(** [pdf.image(name, x, y, w, h, type='JPG')]. *)
Definition image (name : string) (x y w h : Z) (pdf : FPDF.t) : M FPDF.t :=
  fun w0 =>
    match files w0 !! name with
    | Some (JpegFile info) => (Ok (FPDF.image_info info x y w h pdf), w0)
    | _ =>
        (Raise ("FPDF error: Missing or incorrect image file: " +:+ name),
         w0)
    end.

(** [pdf.output(name)]: closes the document, encodes every page's
    content in latin-1 (the encoding of the core fonts), which raises
    [UnicodeEncodeError] when a page holds text outside it, and writes the
    file.  (The exception's message goes on with the character and its
    position in the page's content, which are left out.) *)
Definition output (pdf : FPDF.t) (name : string) : M unit :=
  fun w =>
    let doc := FPDF.pages (PDF.close pdf) in
    if forallb page_latin1 doc
    then (Ok tt, with_files (<[name := PdfFile doc]> (files w)) w)
    else (Raise "'latin-1' codec can't encode character", w).

(** ** [generate_pdf] *)

(** [range(start, stop, step)] for a positive step. *)
Definition py_range (start stop step : nat) : list nat :=
  map (fun k => start + k * step)%nat
      (seq 0 ((stop - start + step - 1) / step)%nat).

(** [l[lo:hi]] for non-negative bounds. *)
Definition slice {A} (l : list A) (lo hi : nat) : list A :=
  take (hi - lo) (drop lo l).

Section generate_pdf.
Local Open Scope Z_scope.

Definition margin : Z := 10.
Definition col_width_img : Z := 80.
Definition col_width_other : Z := 190.
Definition row_height : Z := 90.

(** The body of [for img_file in batch]. *)
Definition draw_row (img_file : UploadedFile) (pdf : FPDF.t) : M FPDF.t :=
  let x_start := FPDF.get_x pdf in
  let y_start := FPDF.get_y pdf in
  let pdf := FPDF.rect x_start y_start col_width_img row_height pdf in
  tmp <- NamedTemporaryFile ".jpg" ;;
  opened <- Image_open img_file ;;
  pil_image <- convert_RGB opened ;;
  _ <- save_jpg pil_image tmp ;;
  pdf <- image tmp (x_start + 2) (y_start + 2)
           (col_width_img - 4) (row_height - 4) pdf ;;
  let tmp_path := tmp in
  _ <- os_remove tmp_path ;;
  let pdf := FPDF.set_xy (x_start + col_width_img) y_start pdf in
  let pdf := PDF.cell col_width_other row_height "" true "" pdf in
  let pdf := FPDF.set_xy x_start (y_start + row_height) pdf in
  ret pdf.

(** The body of [for i in range(0, len(images), 2)]. *)
Definition draw_batch (images : list UploadedFile) (header_text : string)
    (i : nat) (pdf : FPDF.t) : M FPDF.t :=
  let pdf := PDF.add_page pdf in
  let pdf := FPDF.set_font "Arial" "B" 12 pdf in
  let pdf := PDF.cell col_width_img 10 header_text true "C" pdf in
  let pdf := PDF.cell col_width_other 10 "Notes / Data" true "L" pdf in
  let pdf := FPDF.ln pdf in
  let batch := slice images i (i + 2) in
  for_ batch draw_row pdf.

Definition generate_pdf (images : list UploadedFile) (header_text : string)
    : M FPDF.t :=
  let pdf := PDF.new in
  let pdf := FPDF.set_margins margin margin margin pdf in
  for_ (py_range 0 (length images) 2) (draw_batch images header_text) pdf.

End generate_pdf.

(** ** The Streamlit script *)

Inductive Widget :=
| st_title (body : string)
| st_markdown (body : string)
| st_text_input (label value : string)
| st_file_uploader (label : string)
| st_success (body : string)
| st_button (label : string)
| st_spinner (text : string)
| st_download_button (label : string) (data : File) (file_name mime : string)
| st_error (body : string)
| st_info (body : string).

(** The [try] block of the script. *)
Definition build_pdf_bytes (uploaded_files : list UploadedFile)
    (col_header : string) : M File :=
  pdf <- generate_pdf uploaded_files col_header ;;
  tmp_pdf <- NamedTemporaryFile ".pdf" ;;
  _ <- output pdf tmp_pdf ;;
  pdf_bytes <- read_file tmp_pdf ;;
  ret pdf_bytes.

(** One run of the script: [col_header] is the content of the text
    input, [uploaded_files] what the uploader returns and [clicked]
    whether this run was caused by the button.  The result is what the
    run writes to the page, in order, and the world it leaves behind.
    (The markdown body is given without its first and last line break;
    [st.set_page_config] writes nothing to the page.) *)
Definition script (col_header : string) (uploaded_files : list UploadedFile)
    (clicked : bool) (w : World) : list Widget * World :=
  let top :=
    [ st_title "📸 Landscape PDF Generator";
      st_markdown "This tool takes your uploaded photos and places **2 photos per page** in the **first column** of an A4 Landscape PDF.";
      st_text_input "First Column Header Name" col_header;
      st_file_uploader "Upload images" ] in
  match uploaded_files with
  | _ :: _ =>
      let top :=
        top ++
        [ st_success
            ("Uploaded " +:+ pretty (length uploaded_files) +:+ " images.");
          st_button "Generate PDF" ] in
      if clicked then
        match build_pdf_bytes uploaded_files col_header w with
        | (Ok pdf_bytes, w') =>
            (top ++
             [ st_spinner "Generating PDF...";
               st_download_button "📥 Download PDF" pdf_bytes
                 "landscape_photos.pdf" "application/pdf" ],
             w')
        | (Raise e, w') =>
            (top ++
             [ st_spinner "Generating PDF...";
               st_error ("An error occurred: " +:+ e) ],
             w')
        end
      else (top, w)
  | [] => (top ++ [ st_info "Please upload images to start." ], w)
  end.

(** * The vocabulary of the properties *)

(** ** The batches of the loop *)

Fixpoint chunks2 {A} (l : list A) : list (list A) :=
  match l with
  | [] => []
  | [a] => [[a]]
  | a :: b :: r => [a; b] :: chunks2 r
  end.

(** The loop of [generate_pdf], batch by batch. *)
Definition draw_chunk (header_text : string) (batch : list UploadedFile)
    (pdf : FPDF.t) : M FPDF.t :=
  let pdf := PDF.add_page pdf in
  let pdf := FPDF.set_font "Arial" "B" 12 pdf in
  let pdf := PDF.cell col_width_img 10 header_text true "C" pdf in
  let pdf := PDF.cell col_width_other 10 "Notes / Data" true "L" pdf in
  let pdf := FPDF.ln pdf in
  for_ batch draw_row pdf.

(** ** What a run computes, apart from the file system *)

(** [Image.open(img_file).convert('RGB')]. *)
Definition decode (img_file : UploadedFile) : result PILImage :=
  match up_open img_file with
  | Raise e => Raise e
  | Ok im =>
      match im_rgb im with
      | Raise e => Raise e
      | Ok r => Ok {| im_mode := RGB; im_size := im_size im; im_rgb := Ok r |}
      end
  end.

(** [Image.open(img_file).convert('RGB')] followed by the checks of
    [.save]: the image that reaches the staging file. *)
Definition prepare (img_file : UploadedFile) : result PILImage :=
  match decode img_file with
  | Raise e => Raise e
  | Ok im =>
      match jpeg_check im with
      | Raise e => Raise e
      | Ok _ => Ok im
      end
  end.

(** The staging file of an upload, as FPDF reads it back. *)
Definition staged (enc : PILImage -> list N) (img_file : UploadedFile)
    : result JpegInfo :=
  result_map
    (fun im => {| jpg_mode := im_mode im; jpg_size := im_size im;
                  jpg_data := enc im |})
    (prepare img_file).

(** The drawing done for one row, once the staging file is there. *)
Definition place_row (info : JpegInfo) (pdf : FPDF.t) : FPDF.t :=
  let x_start := FPDF.get_x pdf in
  let y_start := FPDF.get_y pdf in
  let pdf := FPDF.rect x_start y_start col_width_img row_height pdf in
  let pdf := FPDF.image_info info (x_start + 2) (y_start + 2)
               (col_width_img - 4) (row_height - 4) pdf in
  let pdf := FPDF.set_xy (x_start + col_width_img) y_start pdf in
  let pdf := PDF.cell col_width_other row_height "" true "" pdf in
  FPDF.set_xy x_start (y_start + row_height) pdf.

Definition table_header (header_text : string) (pdf : FPDF.t) : FPDF.t :=
  let pdf := PDF.add_page pdf in
  let pdf := FPDF.set_font "Arial" "B" 12 pdf in
  let pdf := PDF.cell col_width_img 10 header_text true "C" pdf in
  let pdf := PDF.cell col_width_other 10 "Notes / Data" true "L" pdf in
  FPDF.ln pdf.

Fixpoint fold_result {A S} (l : list A) (body : A -> S -> result S) (s : S)
    : result S :=
  match l with
  | [] => Ok s
  | a :: l' =>
      match body a s with
      | Ok s' => fold_result l' body s'
      | Raise e => Raise e
      end
  end.

Definition render_row (enc : PILImage -> list N) (img_file : UploadedFile)
    (pdf : FPDF.t) : result FPDF.t :=
  result_map (fun info => place_row info pdf) (staged enc img_file).

Definition render_chunk (enc : PILImage -> list N) (header_text : string)
    (batch : list UploadedFile) (pdf : FPDF.t) : result FPDF.t :=
  fold_result batch (render_row enc) (table_header header_text pdf).

Definition render (enc : PILImage -> list N) (images : list UploadedFile)
    (header_text : string) : result FPDF.t :=
  fold_result (chunks2 images) (render_chunk enc header_text)
    (FPDF.set_margins margin margin margin PDF.new).

(** [c] computes [p] of the encoder in use, whatever else the world
    holds, and leaves the encoder in place. *)
Definition runs_as {A} (c : M A) (p : (PILImage -> list N) -> result A) : Prop :=
  forall w, exists w',
    jpeg_encode w' = jpeg_encode w /\ c w = (p (jpeg_encode w), w').

(** ** The sheets, as drawn *)

Section sheets.
Local Open Scope Z_scope.

Definition header_row (label : string) : list DrawOp :=
  [ OpCell 10 10 80 10 label true "C";
    OpCell 90 10 190 10 "Notes / Data" true "L" ].

Definition footer_op (n : nat) : DrawOp :=
  OpCell 10 195 277 10 ("Page " +:+ pretty n) false "C".

Definition image_box (y : Z) : DrawOp := OpRect 10 y 80 90.
Definition picture (y : Z) (info : JpegInfo) : DrawOp :=
  OpImage 12 (y + 2) 76 86 info.
Definition data_cell (y : Z) : DrawOp := OpCell 90 y 190 90 "" true "".

(** Closing the page being written draws its footer. *)
Definition close_last (ps : list Page) : list Page :=
  match ps with
  | [] => []
  | _ => FPDF.out_page ps (footer_op (length ps))
  end.

(** A page with one image row, a page with two (closed by its footer
    when the second data cell is about to be drawn), and the page that the
    second data cell lands on. *)
Definition half_page (label : string) (a : JpegInfo) : Page :=
  header_row label ++ [ image_box 20; picture 20 a; data_cell 20 ].

Definition full_page (label : string) (a b : JpegInfo) (n : nat) : Page :=
  header_row label ++
  [ image_box 20; picture 20 a; data_cell 20;
    image_box 110; picture 110 b; footer_op n ].

Definition spill_page : Page := [ data_cell 10 ].

(** The pages after one batch, from the pages before it. *)
Definition chunk_pages (label : string) (infos : list JpegInfo)
    (ps : list Page) : list Page :=
  match infos with
  | [] => close_last ps ++ [ header_row label ]
  | [a] => close_last ps ++ [ half_page label a ]
  | a :: b :: _ =>
      close_last ps ++ [ full_page label a b (S (length ps)); spill_page ]
  end.

(** The object while [generate_pdf] draws: the fields it sets once and
    for all, the cursor at [(x, y)], the pages [ps]. *)
Definition drawing_at (x y : Z) (ps : list Page) (s : FPDF.t) : Prop :=
  exists bm lh fn,
    s = FPDF.mk 297 210 10 10 10 bm true 190 x y lh false fn ps.

End sheets.

(** ** The document [generate_pdf] returns *)

(** Staging every upload in turn; the first failure is the one raised. *)
Fixpoint stage_all (enc : PILImage -> list N) (images : list UploadedFile)
    : result (list JpegInfo) :=
  match images with
  | [] => Ok []
  | a :: rest =>
      match staged enc a with
      | Raise e => Raise e
      | Ok info =>
          match stage_all enc rest with
          | Raise e => Raise e
          | Ok infos => Ok (info :: infos)
          end
      end
  end.

(** The pages of the whole document, batch after batch. *)
Definition sheets_from (label : string) (infos : list JpegInfo)
    (ps : list Page) : list Page :=
  fold_left (fun ps batch => chunk_pages label batch ps) (chunks2 infos) ps.

Definition sheets (label : string) (infos : list JpegInfo) : list Page :=
  sheets_from label infos [].

(** ** Reading a document *)

Definition op_image (op : DrawOp) : option JpegInfo :=
  match op with
  | OpImage _ _ _ _ info => Some info
  | _ => None
  end.

(** The images embedded on a page, and in a document, in drawing order. *)
Definition page_infos (p : Page) : list JpegInfo := omap op_image p.

Definition embedded (doc : list Page) : list JpegInfo :=
  concat (map page_infos doc).

(** The header row is the row of 10 mm cells at the top margin. *)
Definition is_header_cell (op : DrawOp) : bool :=
  match op with
  | OpCell _ y _ h _ _ _ => ((y =? 10) && (h =? 10))%Z
  | _ => false
  end.

Definition header_of (p : Page) : list DrawOp := List.filter is_header_cell p.

(** An image row is the bordered 80 x 90 box of the image column. *)
Definition is_image_box (op : DrawOp) : bool :=
  match op with
  | OpRect _ _ w h => ((w =? 80) && (h =? 90))%Z
  | _ => false
  end.

Definition image_rows (p : Page) : list DrawOp := List.filter is_image_box p.

Definition decodable (img_file : UploadedFile) : Prop :=
  is_ok (decode img_file) = true.

(** The upload can be staged: it opens, converts and can be written as a
    JPEG. *)
Definition stageable (img_file : UploadedFile) : Prop :=
  is_ok (prepare img_file) = true.

Definition op_y (op : DrawOp) : Z :=
  match op with
  | OpCell _ y _ _ _ _ _ | OpRect _ y _ _ | OpImage _ y _ _ _ => y
  end.

Definition op_h (op : DrawOp) : Z :=
  match op with
  | OpCell _ _ _ h _ _ _ | OpRect _ _ _ h | OpImage _ _ _ h _ => h
  end.

(** The vertical extent of an operation, top and bottom. *)
Definition span (op : DrawOp) : Z * Z := (op_y op, (op_y op + op_h op)%Z).

(** The data cell of a row is the 190 x 90 cell next to the image box. *)
Definition is_data_cell (op : DrawOp) : bool :=
  match op with
  | OpCell _ _ w h _ _ _ => ((w =? 190) && (h =? 90))%Z
  | _ => false
  end.

Definition data_cells (p : Page) : list DrawOp := List.filter is_data_cell p.

Definition label_cell (label : string) : DrawOp :=
  OpCell 10 10 80 10 label true "C".

(** A page either starts with the header row, label first, or has neither
    a header row nor an image. *)
Definition headed (label : string) (p : Page) : Prop :=
  (header_of p = header_row label /\ head p = Some (label_cell label)) \/
  (header_of p = [] /\ page_infos p = []).

(** Every image on the page is 76 x 86 and the operation just before it
    is the 80 x 90 box that starts 2 mm up and 2 mm to the left of it. *)
Definition framed (p : Page) : Prop :=
  forall (k : nat) (x y wd ht : Z) (info : JpegInfo),
    p !! k = Some (OpImage x y wd ht info) ->
    wd = 76%Z /\ ht = 86%Z /\
    exists k', k = S k' /\ p !! k' = Some (OpRect (x - 2) (y - 2) 80 90).

(** ** What the user sees *)

Definition errors (page : list Widget) : list string :=
  omap (fun wd => match wd with st_error body => Some body | _ => None end)
       page.

Definition downloads (page : list Widget) : list File :=
  omap (fun wd => match wd with
                  | st_download_button _ data _ _ => Some data
                  | _ => None
                  end) page.

(** ** The artifact and its geometry *)

Inductive Shape := CellShape | RectShape | ImageShape.

(** Where an operation draws: its kind and its box, nothing of its
    content. *)
Definition placement (op : DrawOp) : Shape * (Z * Z * Z * Z) :=
  match op with
  | OpCell x y w h _ _ _ => (CellShape, (x, y, w, h))
  | OpRect x y w h => (RectShape, (x, y, w, h))
  | OpImage x y w h _ => (ImageShape, (x, y, w, h))
  end.

Definition geometry (doc : list Page) : list (list (Shape * (Z * Z * Z * Z))) :=
  map (map placement) doc.

Definition artifact_pages (f : File) : list Page :=
  match f with
  | PdfFile doc => doc
  | _ => []
  end.

(** The pages [output] writes: the document, closed. *)
Definition closed (doc : list Page) : list Page :=
  close_last (match doc with [] => [[]] | _ => doc end).

(** ** Sample inputs *)

Definition empty_world : World :=
  {| files := ∅; tmp_counter := 0;
     jpeg_encode := fun im => [255; 216; 255; 217]%N |}.

Definition photo (name : string) (mode : Mode) (size : N * N) : UploadedFile :=
  {| up_name := name;
     up_open := Ok {| im_mode := mode; im_size := size; im_rgb := Ok [] |} |}.

Definition not_an_image (name : string) : UploadedFile :=
  {| up_name := name; up_open := Raise "cannot identify image file" |}.

Definition truncated (name : string) : UploadedFile :=
  {| up_name := name;
     up_open := Ok {| im_mode := RGB; im_size := (640, 480)%N;
                      im_rgb := Raise "image file is truncated" |} |}.

Definition two_photos : list UploadedFile :=
  [ photo "a.png" RGBA (640, 480)%N; photo "b.jpg" RGB (3000, 2000)%N ].

Definition three_photos : list UploadedFile :=
  two_photos ++ [ photo "c.png" L (100, 900)%N ].

Definition mixed_uploads : list UploadedFile :=
  [ photo "a.png" RGBA (640, 480)%N; truncated "b.jpg"; not_an_image "c.png" ].

(** * Lemmas *)

(** ** The loop visits the input two elements at a time *)

Lemma pair_induction {A} (Q : list A -> Prop) :
  Q [] -> (forall a, Q [a]) -> (forall a b r, Q r -> Q (a :: b :: r)) ->
  forall l, Q l.
Proof.
  intros H0 H1 H2.
  assert (forall l, Q l /\ forall a, Q (a :: l)) as H.
  { induction l as [|b l [IH1 IH2]]; split; auto. }
  intros l. apply H.
Qed.

Lemma py_range_step2 (n : nat) :
  py_range 0 (S (S n)) 2 = 0%nat :: map (fun i => i + 2)%nat (py_range 0 n 2).
Proof.
  unfold py_range.
  replace ((S (S n) - 0 + 2 - 1) / 2)%nat with (S ((n - 0 + 2 - 1) / 2)).
  - rewrite <- cons_seq, <- fmap_S_seq. simpl.
    f_equal. rewrite <- !list_fmap_compose. apply list_fmap_ext.
    intros _ k _. simpl. lia.
  - replace (S (S n) - 0 + 2 - 1)%nat with ((n - 0 + 2 - 1) + 1 * 2)%nat by lia.
    rewrite Nat.div_add by lia. lia.
Qed.

Lemma slices_chunks2 {A} (l : list A) :
  map (fun i => slice l i (i + 2)) (py_range 0 (length l) 2) = chunks2 l.
Proof.
  induction l as [| a | a b r IH] using pair_induction.
  - reflexivity.
  - reflexivity.
  - cbn [length chunks2]. rewrite py_range_step2. cbn [map]. f_equal.
    rewrite <- IH. rewrite <- list_fmap_compose. apply list_fmap_ext.
    intros _ i _. unfold slice; simpl.
    replace (i + 2 + 2 - (i + 2))%nat with (i + 2 - i)%nat by lia.
    replace (i + 2)%nat with (S (S i)) at 2 by lia. reflexivity.
Qed.

Lemma for_map {A B S} (f : A -> B) (body : B -> S -> M S)
    (l : list A) (s : S) (w : World) :
  for_ (map f l) body s w = for_ l (fun a => body (f a)) s w.
Proof.
  revert s w. induction l as [|a l IH]; intros s w; simpl; [reflexivity|].
  unfold bind. destruct (body (f a) s w) as [[s'|e] w']; auto.
Qed.

Lemma generate_pdf_chunks (images : list UploadedFile) (header_text : string)
    (w : World) :
  generate_pdf images header_text w =
  for_ (chunks2 images) (draw_chunk header_text)
       (FPDF.set_margins margin margin margin PDF.new) w.
Proof.
  unfold generate_pdf. rewrite <- slices_chunks2, for_map. reflexivity.
Qed.

(** ** Runs, apart from the file system *)

Lemma runs_as_for {A S} (body : A -> S -> M S)
    (pbody : (PILImage -> list N) -> A -> S -> result S) (l : list A) :
  (forall a s, runs_as (body a s) (fun enc => pbody enc a s)) ->
  forall s, runs_as (for_ l body s) (fun enc => fold_result l (pbody enc) s).
Proof.
  intros Hbody. induction l as [|a l IH]; intros s w; simpl.
  - exists w. split; reflexivity.
  - unfold bind. destruct (Hbody a s w) as (w1 & Henc1 & ->).
    destruct (pbody (jpeg_encode w) a s) as [s'|e].
    + destruct (IH s' w1) as (w2 & Henc2 & ->).
      exists w2. rewrite Henc1 in *. split; [assumption | reflexivity].
    + exists w1. split; [assumption | reflexivity].
Qed.

Lemma draw_row_runs (img_file : UploadedFile) (pdf : FPDF.t) :
  runs_as (draw_row img_file pdf) (fun enc => render_row enc img_file pdf).
Proof.
  intros w.
  unfold draw_row, render_row, staged, prepare, decode, bind,
    NamedTemporaryFile, Image_open, convert_RGB, save_jpg, lift, bind, ret.
  destruct (up_open img_file) as [im|e]; simpl.
  2: { eexists. split; [|reflexivity]. reflexivity. }
  destruct (im_rgb im) as [r|e]; simpl.
  2: { eexists. split; [|reflexivity]. reflexivity. }
  unfold bind, lift.
  destruct (jpeg_check _) as [[]|e]; simpl.
  2: { eexists. split; [|reflexivity]. reflexivity. }
  unfold image, os_remove, with_files; simpl.
  rewrite lookup_insert_eq; simpl.
  rewrite lookup_insert_eq; simpl.
  eexists. split; [|reflexivity]. reflexivity.
Qed.

Lemma draw_chunk_runs (header_text : string) (batch : list UploadedFile)
    (pdf : FPDF.t) :
  runs_as (draw_chunk header_text batch pdf)
          (fun enc => render_chunk enc header_text batch pdf).
Proof.
  unfold draw_chunk, render_chunk.
  apply (runs_as_for draw_row render_row). apply draw_row_runs.
Qed.

Lemma generate_pdf_runs (images : list UploadedFile) (header_text : string) :
  runs_as (generate_pdf images header_text)
          (fun enc => render enc images header_text).
Proof.
  intros w. rewrite generate_pdf_chunks.
  apply (runs_as_for (draw_chunk header_text)
           (fun enc => render_chunk enc header_text)).
  intros a s. apply draw_chunk_runs.
Qed.

(** ** Drawing, step by step *)

Lemma out_page_snoc (qs : list Page) (q : Page) (op : DrawOp) :
  FPDF.out_page (qs ++ [q]) op = qs ++ [q ++ [op]].
Proof.
  induction qs as [|p qs IH]; [reflexivity|].
  simpl. rewrite IH. destruct qs; reflexivity.
Qed.

Lemma length_out_page (ps : list Page) (op : DrawOp) :
  length (FPDF.out_page ps op) = length ps.
Proof.
  induction ps as [|p ps IH]; [reflexivity|].
  simpl. destruct ps; simpl in *; congruence.
Qed.

Lemma length_close_last (ps : list Page) : length (close_last ps) = length ps.
Proof. destruct ps; [reflexivity|]. apply length_out_page. Qed.

Lemma snoc_cases {A} (l : list A) : l = [] \/ exists l' a, l = l' ++ [a].
Proof.
  induction l as [|a l _] using rev_ind; [left; reflexivity|].
  right. eauto.
Qed.

Lemma close_last_snoc (qs : list Page) (q : Page) :
  close_last (qs ++ [q]) = qs ++ [q ++ [footer_op (S (length qs))]].
Proof.
  unfold close_last. destruct (qs ++ [q]) eqn:E.
  { destruct qs; discriminate. }
  rewrite <- E, out_page_snoc, length_app, Nat.add_1_r. reflexivity.
Qed.

(** Evaluation of the object's fields; page lists and page numbers stay
    as they are. *)
Ltac crunch :=
  lazy -[pretty FPDF.out_page app length close_last Z.add Z.sub].

Section drawing.
Local Open Scope Z_scope.
Import FPDF.

(** With [in_footer] raised, [cell] never reaches [add_page]. *)
Lemma cell_in_footer (add_page1 add_page2 : t -> t) (w h : Z) (txt : string)
    (border : bool) (align : string) (s : t) :
  in_footer s = true ->
  cell_in add_page1 w h txt border align s
  = cell_in add_page2 w h txt border align s.
Proof.
  intros Hin. unfold cell_in. rewrite Hin. cbn [negb].
  rewrite andb_false_r. reflexivity.
Qed.

(** [footer] is the method of the source, over the [cell] of the class. *)
Lemma footer_calls_cell (s : t) :
  in_footer s = true -> PDF.footer s = PDF.footer_in PDF.cell s.
Proof.
  intros Hin. unfold PDF.footer, PDF.footer_in, PDF.cell.
  apply cell_in_footer. exact Hin.
Qed.

Lemma drawing_at_new :
  drawing_at 0 0 [] (set_margins margin margin margin PDF.new).
Proof. do 3 eexists. reflexivity. Qed.

Lemma add_page_at (x y : Z) (ps : list Page) (s : t) :
  drawing_at x y ps s ->
  drawing_at 10 10 (close_last ps ++ [[]]) (PDF.add_page s).
Proof.
  intros (bm & lh & fn & ->).
  destruct (snoc_cases ps) as [-> | (qs & q & ->)].
  - destruct fn; do 3 eexists; reflexivity.
  - rewrite close_last_snoc.
    unfold drawing_at, PDF.add_page, add_page_in, PDF.footer, PDF.footer_in,
      cell_in, out, set_y, set_font, page_no.
    cbn [pages with_pages with_in_footer with_xy with_font].
    rewrite !length_app, !Nat.add_1_r.
    destruct fn; lazy -[pretty FPDF.out_page app length];
      rewrite out_page_snoc; do 3 eexists; reflexivity.
Qed.

Lemma cell_at_fits (x y w h : Z) (txt align : string) (qs : list Page)
    (q : Page) (s : t) :
  drawing_at x y (qs ++ [q]) s ->
  y + h <= 190 -> w <> 0 ->
  drawing_at (x + w) y (qs ++ [q ++ [OpCell x y w h txt true align]])
    (PDF.cell w h txt true align s) /\
  lasth (PDF.cell w h txt true align s) = h.
Proof.
  intros (bm & lh & fn & ->) Hfit Hw.
  unfold drawing_at, PDF.cell, cell_in, out.
  cbn [cur_x cur_y page_break_trigger in_footer auto_page_break].
  replace (y + h >? 190) with false by (symmetry; rewrite Z.gtb_ltb; apply Z.ltb_ge; lia).
  rewrite (proj2 (Z.eqb_neq w 0) Hw).
  crunch. rewrite out_page_snoc. split; [|reflexivity].
  do 3 eexists; reflexivity.
Qed.

Lemma cell_at_breaks (x y w h : Z) (txt align : string) (qs : list Page)
    (q : Page) (s : t) :
  drawing_at x y (qs ++ [q]) s ->
  190 < y + h -> w <> 0 ->
  drawing_at (x + w) 10
    (qs ++ [q ++ [footer_op (S (length qs))]; [OpCell x 10 w h txt true align]])
    (PDF.cell w h txt true align s).
Proof.
  intros Hs Hover Hw.
  pose proof (add_page_at _ _ _ _ Hs) as (bm' & lh' & fn' & Hadd).
  destruct Hs as (bm & lh & fn & ->).
  unfold drawing_at, PDF.cell, cell_in.
  cbn [cur_x cur_y page_break_trigger in_footer auto_page_break].
  replace (y + h >? 190) with true by (symmetry; rewrite Z.gtb_ltb; apply Z.ltb_lt; lia).
  cbn [andb negb]. rewrite Hadd.
  rewrite (proj2 (Z.eqb_neq w 0) Hw). unfold out.
  crunch. rewrite out_page_snoc, close_last_snoc, <- app_assoc.
  do 3 eexists; reflexivity.
Qed.

Lemma rect_at (x y a b c d : Z) (qs : list Page) (q : Page) (s : t) :
  drawing_at x y (qs ++ [q]) s ->
  drawing_at x y (qs ++ [q ++ [OpRect a b c d]]) (rect a b c d s).
Proof.
  intros (bm & lh & fn & ->). unfold drawing_at, rect, out.
  crunch. rewrite out_page_snoc. do 3 eexists; reflexivity.
Qed.

Lemma image_info_at (info : JpegInfo) (x y a b c d : Z) (qs : list Page)
    (q : Page) (s : t) :
  drawing_at x y (qs ++ [q]) s -> c <> 0 -> d <> 0 ->
  drawing_at x y (qs ++ [q ++ [OpImage a b c d info]])
    (image_info info a b c d s).
Proof.
  intros (bm & lh & fn & ->) Hc Hd. unfold drawing_at, image_info, out.
  rewrite (proj2 (Z.eqb_neq c 0) Hc), (proj2 (Z.eqb_neq d 0) Hd).
  crunch. rewrite out_page_snoc. do 3 eexists; reflexivity.
Qed.

Lemma set_xy_at (x y x' y' : Z) (ps : list Page) (s : t) :
  drawing_at x y ps s -> 0 <= x' -> 0 <= y' ->
  drawing_at x' y' ps (set_xy x' y' s).
Proof.
  intros (bm & lh & fn & ->) Hx Hy. unfold drawing_at, set_xy, set_x, set_y.
  cbn [cur_x cur_y with_xy page_w page_h l_margin].
  rewrite (proj2 (Z.leb_le 0 x') Hx), (proj2 (Z.leb_le 0 y') Hy).
  do 3 eexists; reflexivity.
Qed.

Lemma set_font_at (family style : string) (size x y : Z) (ps : list Page)
    (s : t) :
  drawing_at x y ps s -> drawing_at x y ps (set_font family style size s).
Proof. intros (bm & lh & fn & ->). do 3 eexists; reflexivity. Qed.

Lemma ln_at (x y : Z) (ps : list Page) (s : t) :
  drawing_at x y ps s -> drawing_at 10 (y + lasth s) ps (ln s).
Proof. intros (bm & lh & fn & ->). do 3 eexists; reflexivity. Qed.

Lemma get_xy_at (x y : Z) (ps : list Page) (s : t) :
  drawing_at x y ps s -> get_x s = x /\ get_y s = y /\ pages s = ps.
Proof. intros (bm & lh & fn & ->). repeat split. Qed.

Lemma table_header_at (label : string) (x y : Z) (ps : list Page) (s : t) :
  drawing_at x y ps s ->
  drawing_at 10 20 (close_last ps ++ [header_row label])
    (table_header label s).
Proof.
  intros Hs. unfold table_header.
  pose proof (set_font_at "Arial" "B" 12 _ _ _ _ (add_page_at _ _ _ _ Hs))
    as H0.
  destruct (cell_at_fits _ _ col_width_img 10 label "C" _ _ _ H0)
    as [H1 _]; [lia | discriminate |].
  destruct (cell_at_fits _ _ col_width_other 10 "Notes / Data" "L" _ _ _ H1)
    as [H2 Hlast]; [lia | discriminate |].
  pose proof (ln_at _ _ _ _ H2) as H3. rewrite Hlast in H3. exact H3.
Qed.

Lemma place_row_first (info : JpegInfo) (qs : list Page) (q : Page) (s : t) :
  drawing_at 10 20 (qs ++ [q]) s ->
  drawing_at 10 110
    (qs ++ [q ++ [image_box 20; picture 20 info; data_cell 20]])
    (place_row info s).
Proof.
  intros Hs. unfold place_row.
  destruct (get_xy_at _ _ _ _ Hs) as (-> & -> & _).
  pose proof (rect_at _ _ 10 20 col_width_img row_height _ _ _ Hs) as H1.
  pose proof (image_info_at info _ _ (10 + 2) (20 + 2) (col_width_img - 4)
                (row_height - 4) _ _ _ H1) as H2.
  specialize (H2 ltac:(discriminate) ltac:(discriminate)).
  pose proof (set_xy_at _ _ (10 + col_width_img) 20 _ _ H2) as H3.
  specialize (H3 ltac:(discriminate) ltac:(discriminate)).
  destruct (cell_at_fits _ _ col_width_other row_height "" "" _ _ _ H3)
    as [H4 _]; [discriminate | discriminate |].
  pose proof (set_xy_at _ _ 10 (20 + row_height) _ _ H4) as H5.
  specialize (H5 ltac:(discriminate) ltac:(discriminate)).
  rewrite <- !app_assoc in H5. exact H5.
Qed.

Lemma place_row_second (info : JpegInfo) (qs : list Page) (q : Page) (s : t) :
  drawing_at 10 110 (qs ++ [q]) s ->
  drawing_at 10 200
    (qs ++ [q ++ [image_box 110; picture 110 info; footer_op (S (length qs))];
            [data_cell 10]])
    (place_row info s).
Proof.
  intros Hs. unfold place_row.
  destruct (get_xy_at _ _ _ _ Hs) as (-> & -> & _).
  pose proof (rect_at _ _ 10 110 col_width_img row_height _ _ _ Hs) as H1.
  pose proof (image_info_at info _ _ (10 + 2) (110 + 2) (col_width_img - 4)
                (row_height - 4) _ _ _ H1) as H2.
  specialize (H2 ltac:(discriminate) ltac:(discriminate)).
  pose proof (set_xy_at _ _ (10 + col_width_img) 110 _ _ H2) as H3.
  specialize (H3 ltac:(discriminate) ltac:(discriminate)).
  pose proof (cell_at_breaks _ _ col_width_other row_height "" "" _ _ _ H3)
    as H4.
  specialize (H4 ltac:(reflexivity) ltac:(discriminate)).
  pose proof (set_xy_at _ _ 10 (110 + row_height) _ _ H4) as H5.
  specialize (H5 ltac:(discriminate) ltac:(discriminate)).
  rewrite <- !app_assoc in H5. exact H5.
Qed.

End drawing.

(** ** The document, batch after batch *)

Lemma render_chunks_spec (enc : PILImage -> list N) (label : string)
    (images : list UploadedFile) :
  forall x y ps s,
    drawing_at x y ps s ->
    match stage_all enc images with
    | Ok infos =>
        exists s' x' y',
          fold_result (chunks2 images) (render_chunk enc label) s = Ok s' /\
          drawing_at x' y' (sheets_from label infos ps) s'
    | Raise e =>
        fold_result (chunks2 images) (render_chunk enc label) s = Raise e
    end.
Proof.
  induction images as [| a | a b r IH] using pair_induction;
    intros x y ps s Hs.
  - simpl. eauto.
  - pose proof (table_header_at label _ _ _ _ Hs) as Hh.
    cbn [stage_all chunks2 fold_result].
    unfold render_chunk, render_row. cbn [fold_result].
    destruct (staged enc a) as [ia|e]; [|reflexivity].
    cbn [result_map]. do 3 eexists. split; [reflexivity|].
    unfold sheets_from. cbn [chunks2 fold_left chunk_pages].
    apply (place_row_first ia) in Hh. exact Hh.
  - pose proof (table_header_at label _ _ _ _ Hs) as Hh.
    cbn [stage_all chunks2 fold_result].
    unfold render_chunk, render_row. cbn [fold_result].
    destruct (staged enc a) as [ia|e]; [|reflexivity].
    cbn [result_map].
    destruct (staged enc b) as [ib|e]; [|reflexivity].
    cbn [result_map].
    apply (place_row_first ia) in Hh. apply (place_row_second ib) in Hh.
    rewrite length_close_last in Hh.
    specialize (IH _ _ _ _ Hh).
    destruct (stage_all enc r) as [infos|e]; [|exact IH].
    destruct IH as (s' & x' & y' & Hrun & Hat).
    exists s', x', y'. split; [exact Hrun|].
    unfold sheets_from in *. cbn [chunks2 fold_left chunk_pages].
    rewrite <- !app_assoc in Hat. exact Hat.
Qed.

Lemma render_spec (enc : PILImage -> list N) (images : list UploadedFile)
    (label : string) :
  match stage_all enc images with
  | Ok infos =>
      exists s x y,
        render enc images label = Ok s /\ drawing_at x y (sheets label infos) s
  | Raise e => render enc images label = Raise e
  end.
Proof. apply (render_chunks_spec enc label images 0%Z 0%Z [] _ drawing_at_new). Qed.

(** [generate_pdf], seen from its caller. *)
Lemma generate_pdf_spec (images : list UploadedFile) (label : string)
    (w : World) :
  exists w', jpeg_encode w' = jpeg_encode w /\
    match stage_all (jpeg_encode w) images with
    | Ok infos =>
        exists pdf x y,
          generate_pdf images label w = (Ok pdf, w') /\
          drawing_at x y (sheets label infos) pdf
    | Raise e => generate_pdf images label w = (Raise e, w')
    end.
Proof.
  destruct (generate_pdf_runs images label w) as (w' & Henc & Hrun).
  exists w'. split; [exact Henc|].
  pose proof (render_spec (jpeg_encode w) images label) as H.
  destruct (stage_all (jpeg_encode w) images) as [infos|e].
  - destruct H as (s & x & y & Hr & Hat). exists s, x, y.
    rewrite Hrun, Hr. split; [reflexivity | exact Hat].
  - rewrite Hrun, H. reflexivity.
Qed.

(** ** Properties of the sheets *)

Lemma sheets_from_nil (label : string) (ps : list Page) :
  sheets_from label [] ps = ps.
Proof. reflexivity. Qed.

Lemma sheets_from_one (label : string) (a : JpegInfo) (ps : list Page) :
  sheets_from label [a] ps = close_last ps ++ [half_page label a].
Proof. reflexivity. Qed.

Lemma sheets_from_two (label : string) (a b : JpegInfo) (r : list JpegInfo)
    (ps : list Page) :
  sheets_from label (a :: b :: r) ps
  = sheets_from label r
      (close_last ps ++ [full_page label a b (S (length ps)); spill_page]).
Proof. reflexivity. Qed.

Lemma sheets_from_length (label : string) (infos : list JpegInfo) :
  forall ps, length (sheets_from label infos ps) = (length ps + length infos)%nat.
Proof.
  induction infos as [| a | a b r IH] using pair_induction; intros ps.
  - rewrite sheets_from_nil. simpl. lia.
  - rewrite sheets_from_one, length_app, length_close_last. reflexivity.
  - rewrite sheets_from_two, IH, length_app, length_close_last. simpl. lia.
Qed.

Lemma page_infos_snoc_cell (p : Page) (x y w h : Z) (txt : string)
    (border : bool) (align : string) :
  page_infos (p ++ [OpCell x y w h txt border align]) = page_infos p.
Proof. unfold page_infos. rewrite omap_app. simpl. apply app_nil_r. Qed.

Lemma embedded_app (d1 d2 : list Page) :
  embedded (d1 ++ d2) = embedded d1 ++ embedded d2.
Proof. unfold embedded. rewrite map_app. apply concat_app. Qed.

Lemma embedded_close_last (ps : list Page) :
  embedded (close_last ps) = embedded ps.
Proof.
  destruct (snoc_cases ps) as [-> | (qs & q & ->)]; [reflexivity|].
  rewrite close_last_snoc, !embedded_app. f_equal.
  unfold embedded, footer_op. simpl. rewrite page_infos_snoc_cell. reflexivity.
Qed.

Lemma sheets_from_embedded (label : string) (infos : list JpegInfo) :
  forall ps, embedded (sheets_from label infos ps) = embedded ps ++ infos.
Proof.
  induction infos as [| a | a b r IH] using pair_induction; intros ps.
  - rewrite sheets_from_nil, app_nil_r. reflexivity.
  - rewrite sheets_from_one, embedded_app, embedded_close_last. reflexivity.
  - rewrite sheets_from_two, IH, embedded_app, embedded_close_last.
    rewrite <- app_assoc. reflexivity.
Qed.

Lemma Forall_close_last (Q : Page -> Prop) (ps : list Page) :
  (forall p n, Q p -> Q (p ++ [footer_op n])) ->
  Forall Q ps -> Forall Q (close_last ps).
Proof.
  intros Hfoot Hps.
  destruct (snoc_cases ps) as [-> | (qs & q & ->)]; [constructor|].
  rewrite close_last_snoc. apply Forall_app in Hps as [Hqs Hq].
  apply Forall_app. split; [exact Hqs|].
  constructor; [|constructor]. apply Hfoot. inversion Hq; assumption.
Qed.

(** A property of pages that survives the footer holds of every page of
    the document as soon as it holds of the three kinds of page. *)
Lemma sheets_from_Forall (Q : Page -> Prop) (label : string) :
  (forall p n, Q p -> Q (p ++ [footer_op n])) ->
  (forall a, Q (half_page label a)) ->
  (forall a b n, Q (full_page label a b n)) ->
  Q spill_page ->
  forall infos ps, Forall Q ps -> Forall Q (sheets_from label infos ps).
Proof.
  intros Hfoot Hhalf Hfull Hspill.
  induction infos as [| a | a b r IH] using pair_induction; intros ps Hps.
  - exact Hps.
  - rewrite sheets_from_one. apply Forall_app. split.
    + apply Forall_close_last; assumption.
    + constructor; [apply Hhalf | constructor].
  - rewrite sheets_from_two. apply IH. apply Forall_app. split.
    + apply Forall_close_last; assumption.
    + constructor; [apply Hfull|]. constructor; [apply Hspill | constructor].
Qed.

Lemma stage_all_Forall2 (enc : PILImage -> list N) (images : list UploadedFile) :
  Forall stageable images ->
  exists infos,
    stage_all enc images = Ok infos /\
    Forall2 (fun f info => staged enc f = Ok info) images infos.
Proof.
  induction 1 as [|f images Hf _ (infos & Hall & Hrel)].
  - exists []. split; [reflexivity | constructor].
  - assert (exists i, staged enc f = Ok i) as [i Hi].
    { unfold stageable in Hf. unfold staged.
      destruct (prepare f); [eexists; reflexivity | discriminate]. }
    simpl. rewrite Hi, Hall. exists (i :: infos).
    split; [reflexivity|]. constructor; assumption.
Qed.

Lemma stage_all_Exists (enc : PILImage -> list N) (images : list UploadedFile) :
  Exists (fun f => ~ stageable f) images ->
  exists good f rest e,
    images = good ++ f :: rest /\ Forall stageable good /\
    prepare f = Raise e /\ stage_all enc images = Raise e.
Proof.
  induction images as [|f images IH]; intros Hex.
  - inversion Hex.
  - simpl. unfold staged.
    destruct (prepare f) as [im|e] eqn:Hf.
    + simpl. inversion Hex as [? ? Hbad | ? ? Hrest]; subst.
      { exfalso. apply Hbad. unfold stageable. rewrite Hf. reflexivity. }
      destruct (IH Hrest) as (good & g & rest & e & -> & Hgood & Hg & Hall).
      exists (f :: good), g, rest, e. rewrite Hall.
      repeat split; try assumption.
      constructor; [|exact Hgood]. unfold stageable. rewrite Hf. reflexivity.
    + exists [], f, images, e. simpl. repeat split; auto.
Qed.

Lemma generate_pdf_ok (images : list UploadedFile) (label : string)
    (w : World) :
  Forall stageable images ->
  exists pdf w' infos,
    generate_pdf images label w = (Ok pdf, w') /\
    Forall2 (fun f info => staged (jpeg_encode w) f = Ok info) images infos /\
    FPDF.pages pdf = sheets label infos.
Proof.
  intros Hall.
  destruct (stage_all_Forall2 (jpeg_encode w) images Hall)
    as (infos & Hstage & Hrel).
  destruct (generate_pdf_spec images label w) as (w' & _ & Hspec).
  rewrite Hstage in Hspec. destruct Hspec as (pdf & x & y & Hrun & Hat).
  exists pdf, w', infos. repeat split; try assumption.
  apply (get_xy_at _ _ _ _ Hat).
Qed.

Lemma generate_pdf_fails (images : list UploadedFile) (label : string)
    (w : World) :
  Exists (fun f => ~ stageable f) images ->
  exists good f rest e w',
    images = good ++ f :: rest /\ Forall stageable good /\
    prepare f = Raise e /\
    generate_pdf images label w = (Raise e, w').
Proof.
  intros Hex.
  destruct (stage_all_Exists (jpeg_encode w) images Hex)
    as (good & f & rest & e & Himages & Hgood & Hf & Hstage).
  destruct (generate_pdf_spec images label w) as (w' & _ & Hspec).
  rewrite Hstage in Hspec. exists good, f, rest, e, w'. auto.
Qed.

(** The document has one page per image: every full batch costs a second
    page, the one its second data cell is moved to. *)
Lemma generate_pdf_page_count (images : list UploadedFile) (label : string)
    (w : World) :
  Forall stageable images ->
  exists pdf w',
    generate_pdf images label w = (Ok pdf, w') /\
    FPDF.page_no pdf = length images.
Proof.
  intros Hall.
  destruct (generate_pdf_ok images label w Hall)
    as (pdf & w' & infos & Hrun & Hrel & Hpages).
  exists pdf, w'. split; [exact Hrun|].
  unfold FPDF.page_no, sheets in *. rewrite Hpages, sheets_from_length.
  simpl. symmetry. eapply Forall2_length. exact Hrel.
Qed.

Lemma header_of_snoc_footer (p : Page) (n : nat) :
  header_of (p ++ [footer_op n]) = header_of p.
Proof. unfold header_of. rewrite List.filter_app. simpl. apply app_nil_r. Qed.

Lemma headed_footer (label : string) (p : Page) (n : nat) :
  headed label p -> headed label (p ++ [footer_op n]).
Proof.
  unfold headed. rewrite header_of_snoc_footer.
  unfold footer_op. rewrite page_infos_snoc_cell.
  intros [[Hh Hd] | [Hh Hi]]; [left | right]; split; try assumption.
  destruct p; [discriminate | exact Hd].
Qed.

Lemma sheets_headed (label : string) (infos : list JpegInfo) :
  Forall (headed label) (sheets label infos).
Proof.
  apply sheets_from_Forall.
  - apply headed_footer.
  - intros a. left. split; reflexivity.
  - intros a b n. left. split; reflexivity.
  - right. split; reflexivity.
  - constructor.
Qed.

Lemma framed_footer (p : Page) (n : nat) :
  framed p -> framed (p ++ [footer_op n]).
Proof.
  intros Hp k x y wd ht info Hk.
  apply lookup_app_Some in Hk as [Hk | [_ Hk]].
  - destruct (Hp _ _ _ _ _ _ Hk) as (Hw & Hh & k' & -> & Hk').
    repeat split; try assumption. exists k'. split; [reflexivity|].
    apply lookup_app_l_Some. exact Hk'.
  - destruct (k - length p)%nat as [|[|]]; discriminate.
Qed.

Ltac by_index H k :=
  first [ discriminate H
        | destruct k as [|k]; simpl in H;
          [ try discriminate H | by_index H k ] ].

Ltac framed_by_cases :=
  let k := fresh "k" in
  let H := fresh "H" in
  intros k ? ? ? ? ? H;
  by_index H k;
  inversion H; subst; clear H;
  (split; [reflexivity | split; [reflexivity|]]);
  eexists; (split; [reflexivity | reflexivity]).

Lemma sheets_framed (label : string) (infos : list JpegInfo) :
  Forall framed (sheets label infos).
Proof.
  apply sheets_from_Forall.
  - apply framed_footer.
  - intros a. unfold half_page, header_row, image_box, picture, data_cell.
    framed_by_cases.
  - intros a b n.
    unfold full_page, header_row, image_box, picture, data_cell, footer_op.
    framed_by_cases.
  - unfold spill_page, data_cell. framed_by_cases.
  - constructor.
Qed.

(** The staging file of an upload holds that upload's image, converted:
    its size, the mode RGB, and the encoding of its RGB pixel data. *)
Lemma staged_of_upload (enc : PILImage -> list N) (f : UploadedFile)
    (info : JpegInfo) :
  staged enc f = Ok info ->
  exists im r,
    up_open f = Ok im /\ im_rgb im = Ok r /\
    info = {| jpg_mode := RGB;
              jpg_size := im_size im;
              jpg_data := enc {| im_mode := RGB; im_size := im_size im;
                                 im_rgb := Ok r |} |}.
Proof.
  unfold staged, prepare, decode.
  destruct (up_open f) as [im|e]; [|discriminate].
  destruct (im_rgb im) as [r|e] eqn:Hr; [|discriminate].
  destruct (jpeg_check _) as [[]|e]; [|discriminate].
  simpl. intros [= <-]. exists im, r. repeat split. exact Hr.
Qed.

(** ** Closing the document *)

Section closing.
Local Open Scope Z_scope.
Import FPDF.

Lemma footer_at (x y : Z) (qs : list Page) (q : Page) (s : t) :
  drawing_at x y (qs ++ [q]) s ->
  pages (with_in_footer false (PDF.footer (with_in_footer true s)))
  = qs ++ [q ++ [footer_op (S (length qs))]].
Proof.
  intros (bm & lh & fn & ->).
  unfold PDF.footer, PDF.footer_in, cell_in, out, set_y, set_font, page_no.
  cbn [pages with_pages with_in_footer with_xy with_font].
  rewrite !length_app, !Nat.add_1_r.
  lazy -[pretty FPDF.out_page app length].
  rewrite out_page_snoc. reflexivity.
Qed.

Lemma close_at (x y : Z) (ps : list Page) (s : t) :
  drawing_at x y ps s -> pages (PDF.close s) = closed ps.
Proof.
  intros Hs. unfold PDF.close, close_in, closed.
  destruct (snoc_cases ps) as [-> | (qs & q & ->)].
  - destruct (get_xy_at _ _ _ _ Hs) as (_ & _ & Hp).
    unfold page_no. rewrite Hp. cbn [length Nat.eqb].
    apply add_page_at in Hs. cbn [close_last app] in Hs.
    apply (footer_at _ _ [] []) in Hs. exact Hs.
  - destruct (get_xy_at _ _ _ _ Hs) as (_ & _ & Hp).
    unfold page_no. rewrite Hp, length_app, Nat.add_1_r. cbn [Nat.eqb].
    rewrite (footer_at _ _ _ _ _ Hs), <- close_last_snoc.
    destruct (qs ++ [q]) eqn:E; [destruct qs; discriminate | reflexivity].
Qed.

End closing.

(** ** Text that the core fonts can encode *)

Lemma latin1_digit (d : N) (s : string) :
  latin1 (String (pretty_N_char d) s) = latin1 s.
Proof. unfold pretty_N_char. repeat case_match; reflexivity. Qed.

Lemma latin1_pretty_N_go (x : N) :
  forall s, latin1 s = true -> latin1 (pretty_N_go x s) = true.
Proof.
  induction (N.lt_wf_0 x) as [x _ IH]; intros s Hs.
  destruct (decide (x = 0)%N) as [->|Hx].
  - rewrite pretty_N_go_0. exact Hs.
  - rewrite pretty_N_go_step by lia. apply IH.
    + apply N.div_lt; lia.
    + rewrite latin1_digit. exact Hs.
Qed.

Lemma latin1_pretty_nat (n : nat) : latin1 (pretty n) = true.
Proof.
  unfold pretty, pretty_nat, pretty, pretty_N. case_decide; [reflexivity|].
  apply latin1_pretty_N_go. reflexivity.
Qed.

Lemma latin1_footer (n : nat) : latin1 (op_text (footer_op n)) = true.
Proof.
  unfold footer_op, op_text.
  cbn [String.append]. cbn -[pretty]. apply latin1_pretty_nat.
Qed.

Lemma page_latin1_footer (p : Page) (n : nat) :
  page_latin1 (p ++ [footer_op n]) = page_latin1 p.
Proof.
  unfold page_latin1. rewrite forallb_app. cbn [forallb].
  rewrite latin1_footer. rewrite !andb_true_r. reflexivity.
Qed.

Lemma page_latin1_false (p : Page) (op : DrawOp) :
  In op p -> latin1 (op_text op) = false -> page_latin1 p = false.
Proof.
  intros Hin Hop. unfold page_latin1.
  destruct (forallb _ p) eqn:E; [|reflexivity].
  rewrite forallb_forall in E. rewrite (E op Hin) in Hop. discriminate.
Qed.

Lemma Exists_close_last (Q : Page -> Prop) (ps : list Page) :
  (forall p n, Q p -> Q (p ++ [footer_op n])) ->
  Exists Q ps -> Exists Q (close_last ps).
Proof.
  intros Hfoot Hps.
  destruct (snoc_cases ps) as [-> | (qs & q & ->)]; [inversion Hps|].
  rewrite close_last_snoc. apply Exists_app in Hps as [Hqs | Hq].
  - apply Exists_app. left. exact Hqs.
  - apply Exists_app. right. constructor. apply Hfoot.
    inversion Hq as [? ? H | ? ? H]; [exact H | inversion H].
Qed.

(** As soon as there is an image, some page carries the label cell. *)
Lemma sheets_from_labelled (label : string) (infos : list JpegInfo) :
  forall ps,
    Exists (fun p => In (label_cell label) p) ps \/ infos <> [] ->
    Exists (fun p => In (label_cell label) p) (sheets_from label infos ps).
Proof.
  assert (forall p n, In (label_cell label) p ->
                      In (label_cell label) (p ++ [footer_op n])) as Hfoot.
  { intros p n Hp. apply in_or_app. left. exact Hp. }
  induction infos as [| a | a b r IH] using pair_induction; intros ps Hps.
  - destruct Hps as [Hps | Hne]; [exact Hps | contradiction].
  - rewrite sheets_from_one. apply Exists_app. right.
    constructor. left. reflexivity.
  - rewrite sheets_from_two. apply IH. left.
    apply Exists_app. right. constructor. left. reflexivity.
Qed.

(** [output] can encode the document exactly when the label is within
    latin-1 or no page carries it. *)
Lemma latin1_closed_sheets (label : string) (infos : list JpegInfo) :
  forallb page_latin1 (closed (sheets label infos))
  = latin1 label || match infos with [] => true | _ => false end.
Proof.
  destruct (latin1 label) eqn:Hlabel; cbn [orb].
  - apply forallb_forall. intros p Hp. apply list_elem_of_In in Hp.
    revert p Hp. apply Forall_forall. unfold closed.
    apply Forall_close_last.
    { intros p n Hp. rewrite page_latin1_footer. exact Hp. }
    assert (Forall (fun p => page_latin1 p = true) (sheets label infos))
      as Hall.
    { apply sheets_from_Forall.
      - intros p n Hp. rewrite page_latin1_footer. exact Hp.
      - intros a. unfold half_page, header_row, page_latin1.
        cbn [app forallb op_text image_box picture data_cell].
        rewrite Hlabel. reflexivity.
      - intros a b n. unfold full_page.
        change (header_row label ++
                [image_box 20; picture 20 a; data_cell 20;
                 image_box 110; picture 110 b; footer_op n])
          with ((header_row label ++
                 [image_box 20; picture 20 a; data_cell 20;
                  image_box 110; picture 110 b]) ++ [footer_op n]).
        rewrite page_latin1_footer. unfold header_row, page_latin1.
        cbn [app forallb op_text image_box picture data_cell].
        rewrite Hlabel. reflexivity.
      - reflexivity.
      - constructor. }
    destruct (sheets label infos); [|exact Hall].
    constructor; [reflexivity | constructor].
  - destruct infos as [|a infos].
    + vm_compute. reflexivity.
    + assert (a :: infos <> []) as Hne by discriminate.
      pose proof (sheets_from_labelled label (a :: infos) []
                    (or_intror Hne)) as Hex.
      change (sheets_from label (a :: infos) [])
        with (sheets label (a :: infos)) in Hex.
      assert (Exists (fun p => In (label_cell label) p)
                (closed (sheets label (a :: infos)))) as Hclosed.
      { unfold closed. apply Exists_close_last.
        - intros p n Hp. apply in_or_app. left. exact Hp.
        - destruct (sheets label (a :: infos)); [inversion Hex | exact Hex]. }
      apply Exists_exists in Hclosed as (p & Hp & Hin).
      apply list_elem_of_In in Hp.
      destruct (forallb page_latin1 _) eqn:E; [|reflexivity].
      rewrite forallb_forall in E. specialize (E p Hp).
      rewrite (page_latin1_false p (label_cell label) Hin Hlabel) in E.
      discriminate.
Qed.

Lemma build_pdf_bytes_spec (images : list UploadedFile) (label : string)
    (w : World) :
  exists w',
    match stage_all (jpeg_encode w) images with
    | Ok infos =>
        build_pdf_bytes images label w
        = (if forallb page_latin1 (closed (sheets label infos))
           then Ok (PdfFile (closed (sheets label infos)))
           else Raise "'latin-1' codec can't encode character",
           w')
    | Raise e => build_pdf_bytes images label w = (Raise e, w')
    end.
Proof.
  destruct (generate_pdf_spec images label w) as (w1 & _ & Hspec).
  unfold build_pdf_bytes, bind.
  destruct (stage_all (jpeg_encode w) images) as [infos|e].
  - destruct Hspec as (pdf & x & y & -> & Hat).
    unfold NamedTemporaryFile, output, read_file, ret, with_files.
    cbn [files tmp_counter jpeg_encode].
    rewrite (close_at _ _ _ _ Hat).
    destruct (forallb page_latin1 (closed (sheets label infos))).
    + cbn [files]. rewrite lookup_insert_eq. eexists. reflexivity.
    + eexists. reflexivity.
  - exists w1. rewrite Hspec. reflexivity.
Qed.

(** ** Geometry *)

Lemma geometry_app (d1 d2 : list Page) :
  geometry (d1 ++ d2) = geometry d1 ++ geometry d2.
Proof. apply map_app. Qed.

Lemma geometry_length (d1 d2 : list Page) :
  geometry d1 = geometry d2 -> length d1 = length d2.
Proof.
  intros H. apply (f_equal (@length _)) in H.
  unfold geometry in H. rewrite !length_map in H. exact H.
Qed.

Lemma geometry_close_last (d1 d2 : list Page) :
  geometry d1 = geometry d2 ->
  geometry (close_last d1) = geometry (close_last d2).
Proof.
  intros H. pose proof (geometry_length _ _ H) as Hlen.
  destruct (snoc_cases d1) as [-> | (qs1 & q1 & ->)];
    destruct (snoc_cases d2) as [-> | (qs2 & q2 & ->)];
    rewrite ?length_app in Hlen; simpl in Hlen; try lia.
  - reflexivity.
  - rewrite !close_last_snoc, !geometry_app in *.
    apply app_inj_tail in H as [Hqs Hq].
    assert (length qs1 = length qs2) as -> by lia.
    rewrite Hqs. f_equal. simpl in *. rewrite !map_app. congruence.
Qed.

Lemma geometry_sheets_from (label : string) (infos1 : list JpegInfo) :
  forall infos2 ps1 ps2,
    length infos1 = length infos2 ->
    geometry ps1 = geometry ps2 ->
    geometry (sheets_from label infos1 ps1)
    = geometry (sheets_from label infos2 ps2).
Proof.
  induction infos1 as [| a | a b r IH] using pair_induction;
    intros infos2 ps1 ps2 Hlen Hps.
  - destruct infos2; [exact Hps | discriminate].
  - destruct infos2 as [|a' [|]]; try discriminate.
    rewrite !sheets_from_one, !geometry_app.
    rewrite (geometry_close_last _ _ Hps). reflexivity.
  - destruct infos2 as [|a' [|b' r']]; try discriminate.
    rewrite !sheets_from_two. apply IH.
    + simpl in Hlen. lia.
    + rewrite !geometry_app, (geometry_close_last _ _ Hps).
      rewrite (geometry_length _ _ Hps). reflexivity.
Qed.

Lemma geometry_closed (d1 d2 : list Page) :
  geometry d1 = geometry d2 -> geometry (closed d1) = geometry (closed d2).
Proof.
  intros H. unfold closed. apply geometry_close_last.
  destruct d1, d2; try discriminate; [reflexivity | exact H].
Qed.

(** Staging under two encoders fails on the same image with the same
    exception, or succeeds on all images under both. *)
Lemma stage_all_encoders (enc1 enc2 : PILImage -> list N)
    (images : list UploadedFile) :
  match stage_all enc1 images, stage_all enc2 images with
  | Ok infos1, Ok infos2 => length infos1 = length infos2
  | Raise e1, Raise e2 => e1 = e2
  | _, _ => False
  end.
Proof.
  induction images as [|f images IH]; simpl; [reflexivity|].
  unfold staged. destruct (prepare f) as [im|e]; simpl; [|reflexivity].
  destruct (stage_all enc1 images), (stage_all enc2 images);
    simpl; congruence.
Qed.

(** No page holds more than two image rows. *)
Lemma sheets_rows (label : string) (infos : list JpegInfo) :
  Forall (fun p => length (image_rows p) <= 2) (sheets label infos).
Proof.
  apply sheets_from_Forall.
  - intros p n Hp. unfold image_rows in *.
    rewrite List.filter_app, length_app. simpl. lia.
  - intros a. simpl. lia.
  - intros a b n. simpl. lia.
  - simpl. lia.
  - constructor.
Qed.

(** * The claims *)

(** C1 (the code departs from it).  The claim is one page per batch of
    two, [ceil(N/2)] pages.  For two images [generate_pdf] returns a
    document of two pages, not one, and for three images one of three
    pages, whose second page holds no image row: the second data cell of a
    full batch does not fit above the page-break trigger, so [cell] opens a
    page for it. *)
Theorem two_photos_make_two_pages :
  result_map FPDF.page_no (fst (generate_pdf two_photos "pic" empty_world))
  = Ok 2%nat /\
  result_map (fun pdf => map (fun p => length (image_rows p)) (FPDF.pages pdf))
    (fst (generate_pdf three_photos "pic" empty_world))
  = Ok [2; 0; 1]%nat.
Proof. split; vm_compute; reflexivity. Qed.

(** C2 (the code departs from it).  Two images, label "pic": the first
    page holds both image boxes (tops at 20 and 110) but only the first
    data cell; the second data cell is alone on the second page, at the
    top margin, so the second image row has no data cell sharing its
    vertical span; and the second page has no header row. *)
Theorem second_row_loses_its_data_cell :
  result_map
    (fun pdf => map (fun p => (map span (image_rows p),
                               map span (data_cells p),
                               length (header_of p)))
                    (FPDF.pages pdf))
    (fst (generate_pdf two_photos "pic" empty_world))
  = Ok [ ([(20, 110); (110, 200)], [(20, 110)], 2%nat);
         ([], [(10, 100)], 0%nat) ]%Z.
Proof. vm_compute. reflexivity. Qed.

(** C3 (the code departs from it).  Two images, label
    "Item #1 (front) 50%": the header row of the first page is the
    image-column cell carrying the label exactly as passed, then the
    "Notes / Data" cell; the second page, opened by the page break of the
    second data cell, has no header row at all, so the label is not
    rendered on that page. *)
Theorem second_page_has_no_header_row :
  result_map (fun pdf => map header_of (FPDF.pages pdf))
    (fst (generate_pdf two_photos "Item #1 (front) 50%" empty_world))
  = Ok [ [ OpCell 10 10 80 10 "Item #1 (front) 50%" true "C";
           OpCell 90 10 190 10 "Notes / Data" true "L" ];
         [] ]%Z.
Proof. vm_compute. reflexivity. Qed.

(** C4.  For every list of images that can be staged (each decodes,
    converts and can be written as a JPEG, which takes a size from 1 to
    65500 pixels each way), whatever their sizes within that, every input
    image is embedded exactly once, in input order, and each embedded
    image is stretched to 76 x 86 mm, that is (80-4) x (90-4), drawn right
    after the 80 x 90 mm box of its row and 2 mm inside it on every
    side. *)
Theorem image_fills_inset_box (images : list UploadedFile) (label : string)
    (w : World) :
  Forall stageable images ->
  exists pdf w' infos,
    generate_pdf images label w = (Ok pdf, w') /\
    Forall2 (fun f info => staged (jpeg_encode w) f = Ok info) images infos /\
    embedded (FPDF.pages pdf) = infos /\
    forall page, In page (FPDF.pages pdf) ->
    forall (k : nat) (x y wd ht : Z) (info : JpegInfo),
      page !! k = Some (OpImage x y wd ht info) ->
      wd = (col_width_img - 4)%Z /\ ht = (row_height - 4)%Z /\
      (x + wd = x - 2 + col_width_img - 2)%Z /\
      (y + ht = y - 2 + row_height - 2)%Z /\
      exists k', k = S k' /\
        page !! k' = Some (OpRect (x - 2) (y - 2) col_width_img row_height).
Proof.
  intros Hall.
  destruct (generate_pdf_ok images label w Hall)
    as (pdf & w' & infos & Hrun & Hrel & Hpages).
  exists pdf, w', infos. rewrite Hpages.
  split; [exact Hrun|]. split; [exact Hrel|]. split.
  - unfold sheets. rewrite sheets_from_embedded. reflexivity.
  - intros page Hin k x y wd ht info Hk.
    pose proof (sheets_framed label infos) as Hfr.
    rewrite Forall_forall in Hfr. apply list_elem_of_In in Hin.
    destruct (Hfr page Hin _ _ _ _ _ _ Hk) as (-> & -> & k' & -> & Hk').
    unfold col_width_img, row_height.
    repeat split; try lia. exists k'. split; [reflexivity | exact Hk'].
Qed.

Lemma image_fills_inset_box_witness :
  Forall stageable three_photos /\
  exists pdf w' infos,
    generate_pdf three_photos "pic" empty_world = (Ok pdf, w') /\
    Forall2 (fun f info => staged (jpeg_encode empty_world) f = Ok info)
      three_photos infos /\
    embedded (FPDF.pages pdf) = infos /\
    forall page, In page (FPDF.pages pdf) ->
    forall (k : nat) (x y wd ht : Z) (info : JpegInfo),
      page !! k = Some (OpImage x y wd ht info) ->
      wd = (col_width_img - 4)%Z /\ ht = (row_height - 4)%Z /\
      (x + wd = x - 2 + col_width_img - 2)%Z /\
      (y + ht = y - 2 + row_height - 2)%Z /\
      exists k', k = S k' /\
        page !! k' = Some (OpRect (x - 2) (y - 2) col_width_img row_height).
Proof.
  assert (Forall stageable three_photos) as Hall by (repeat constructor).
  split; [exact Hall|].
  apply (image_fills_inset_box three_photos "pic" empty_world). exact Hall.
Defined.

(** C5.  For every list of images that can be staged (each decodes,
    converts and can be written as a JPEG), of whatever mode (a PNG with
    an alpha channel among them), the images embedded in the document
    are, in input order, the uploads after [convert('RGB')]: the embedded
    image of an upload has that upload's size, the mode RGB, which has no
    alpha band, and as data the encoding of the upload's RGB pixel data.
    Nothing else is embedded. *)
Theorem embedded_images_are_flattened (images : list UploadedFile)
    (label : string) (w : World) :
  Forall stageable images ->
  exists pdf w',
    generate_pdf images label w = (Ok pdf, w') /\
    Forall2
      (fun f info =>
         exists im r,
           up_open f = Ok im /\ im_rgb im = Ok r /\
           info = {| jpg_mode := RGB;
                     jpg_size := im_size im;
                     jpg_data :=
                       jpeg_encode w {| im_mode := RGB; im_size := im_size im;
                                        im_rgb := Ok r |} |} /\
           has_alpha (jpg_mode info) = false)
      images (embedded (FPDF.pages pdf)).
Proof.
  intros Hall.
  destruct (generate_pdf_ok images label w Hall)
    as (pdf & w' & infos & Hrun & Hrel & Hpages).
  exists pdf, w'. split; [exact Hrun|].
  rewrite Hpages. unfold sheets. rewrite sheets_from_embedded. simpl.
  clear Hrun Hpages Hall.
  induction Hrel as [|f info images infos Hf _ IH]; constructor; [|exact IH].
  destruct (staged_of_upload _ _ _ Hf) as (im & r & Hopen & Hrgb & ->).
  exists im, r. repeat split; assumption.
Qed.

Lemma embedded_images_are_flattened_witness :
  Forall stageable two_photos /\
  exists pdf w',
    generate_pdf two_photos "pic" empty_world = (Ok pdf, w') /\
    Forall2
      (fun f info =>
         exists im r,
           up_open f = Ok im /\ im_rgb im = Ok r /\
           info = {| jpg_mode := RGB;
                     jpg_size := im_size im;
                     jpg_data :=
                       jpeg_encode empty_world
                         {| im_mode := RGB; im_size := im_size im;
                            im_rgb := Ok r |} |} /\
           has_alpha (jpg_mode info) = false)
      two_photos (embedded (FPDF.pages pdf)).
Proof.
  assert (Forall stageable two_photos) as Hall by (repeat constructor).
  split; [exact Hall|].
  apply (embedded_images_are_flattened two_photos "pic" empty_world).
  exact Hall.
Defined.

(** The messages the page shows with [st.info]. *)
Definition notices (page : list Widget) : list string :=
  omap (fun wd => match wd with st_info body => Some body | _ => None end)
       page.

(** C6.  For an empty image list, [generate_pdf] yields an empty document
    of 0 pages, and the script signals the missing input to its caller,
    the user, without failing: it builds nothing (the world is left as it
    was, no file is written), shows the one notice "Please upload images to
    start.", and offers no download. *)
Theorem empty_upload_informs_the_user (col_header : string) (clicked : bool)
    (w : World) :
  (exists pdf,
     generate_pdf [] col_header w = (Ok pdf, w) /\ FPDF.pages pdf = []) /\
  notices (fst (script col_header [] clicked w))
  = ["Please upload images to start."] /\
  downloads (fst (script col_header [] clicked w)) = [] /\
  snd (script col_header [] clicked w) = w.
Proof.
  split; [eexists; split; reflexivity|].
  repeat split.
Qed.

Lemma not_decodable_not_stageable (f : UploadedFile) :
  ~ decodable f -> ~ stageable f.
Proof.
  unfold decodable, stageable, prepare. intros Hf Hs. apply Hf.
  destruct (decode f); [reflexivity | discriminate].
Qed.

(** C7.  When some uploaded image cannot be decoded or converted and the
    button is pressed, the whole build aborts: it raises the exception of
    the first upload that fails on its way to the document (at
    [Image.open], at [convert] or at [save]; the uploads before it all
    went through) instead of returning a document, the page shows no
    download button, and it shows exactly one error message, which carries
    the text of that exception. *)
Theorem failing_image_aborts_build (col_header : string)
    (uploaded_files : list UploadedFile) (w : World) :
  Exists (fun f => ~ decodable f) uploaded_files ->
  exists good f rest e w',
    uploaded_files = good ++ f :: rest /\ Forall stageable good /\
    prepare f = Raise e /\
    build_pdf_bytes uploaded_files col_header w = (Raise e, w') /\
    downloads (fst (script col_header uploaded_files true w)) = [] /\
    errors (fst (script col_header uploaded_files true w))
    = ["An error occurred: " +:+ e].
Proof.
  intros Hex.
  assert (Exists (fun f => ~ stageable f) uploaded_files) as Hex'.
  { eapply Exists_impl; [exact Hex|]. apply not_decodable_not_stageable. }
  destruct (generate_pdf_fails uploaded_files col_header w Hex')
    as (good & f & rest & e & w' & Hfiles & Hgood & Hf & Hgen).
  assert (build_pdf_bytes uploaded_files col_header w = (Raise e, w'))
    as Hbuild.
  { unfold build_pdf_bytes, bind. rewrite Hgen. reflexivity. }
  exists good, f, rest, e, w'. repeat split; try assumption.
  - unfold script. destruct uploaded_files as [|u us]; [inversion Hex|].
    rewrite Hbuild. reflexivity.
  - unfold script. destruct uploaded_files as [|u us]; [inversion Hex|].
    rewrite Hbuild. reflexivity.
Qed.

Lemma failing_image_aborts_build_witness :
  Exists (fun f => ~ decodable f) mixed_uploads /\
  exists good f rest e w',
    mixed_uploads = good ++ f :: rest /\ Forall stageable good /\
    prepare f = Raise e /\
    build_pdf_bytes mixed_uploads "pic" empty_world = (Raise e, w') /\
    downloads (fst (script "pic" mixed_uploads true empty_world)) = [] /\
    errors (fst (script "pic" mixed_uploads true empty_world))
    = ["An error occurred: " +:+ e].
Proof.
  assert (Exists (fun f => ~ decodable f) mixed_uploads) as Hex.
  { apply Exists_cons_tl, Exists_cons_hd. unfold decodable. simpl.
    discriminate. }
  split; [exact Hex|].
  apply (failing_image_aborts_build "pic" mixed_uploads empty_world).
  exact Hex.
Defined.

(** C8 (the code departs from it).  One decodable image, button pressed,
    nothing on disk before: after the run the staging file is gone but
    the file that received the document, [/tmp/tmp1.pdf], is still
    there.  With an upload that fails to decode, the run ends with the
    error message and the staging file opened for that upload,
    [/tmp/tmp1.jpg], is still there. *)
Theorem temporary_files_left_behind :
  map fst (map_to_list
             (files (snd (script "pic" [photo "a.png" RGBA (640, 480)%N]
                            true empty_world))))
  = ["/tmp/tmp1.pdf"] /\
  map_to_list (files (snd (script "pic" mixed_uploads true empty_world)))
  = [("/tmp/tmp1.jpg", EmptyFile)].
Proof. split; vm_compute; reflexivity. Qed.

(** C9.  Two runs of the pipeline on the same uploaded images and the
    same label, in any two worlds (other files on disk, other temporary
    names, another JPEG encoder), either both fail with the same
    exception or both produce an artifact, and the two artifacts have the
    same number of pages and, page by page and operation by operation, the
    same kinds of cell at the same coordinates. *)
Theorem same_inputs_same_geometry (images : list UploadedFile)
    (label : string) (w1 w2 : World) :
  result_map (fun f => geometry (artifact_pages f))
    (fst (build_pdf_bytes images label w1))
  = result_map (fun f => geometry (artifact_pages f))
      (fst (build_pdf_bytes images label w2)) /\
  result_map (fun f => length (artifact_pages f))
    (fst (build_pdf_bytes images label w1))
  = result_map (fun f => length (artifact_pages f))
      (fst (build_pdf_bytes images label w2)).
Proof.
  destruct (build_pdf_bytes_spec images label w1) as (w1' & H1).
  destruct (build_pdf_bytes_spec images label w2) as (w2' & H2).
  pose proof (stage_all_encoders (jpeg_encode w1) (jpeg_encode w2) images)
    as Henc.
  destruct (stage_all (jpeg_encode w1) images) as [infos1|e1],
           (stage_all (jpeg_encode w2) images) as [infos2|e2];
    try contradiction; rewrite H1, H2; cbn [fst].
  - assert (geometry (closed (sheets label infos1))
            = geometry (closed (sheets label infos2))) as Hgeo.
    { apply geometry_closed, geometry_sheets_from; [exact Henc | reflexivity]. }
    rewrite !latin1_closed_sheets.
    assert (match infos1 with [] => true | _ => false end
            = match infos2 with [] => true | _ => false end) as ->.
    { destruct infos1, infos2; try discriminate Henc; reflexivity. }
    destruct (latin1 label || _); simpl; [|split; reflexivity].
    split; [rewrite Hgeo; reflexivity|].
    f_equal. apply geometry_length. exact Hgeo.
  - subst. split; reflexivity.
Qed.

(** C10 (the code departs from it).  Two images: on the 210 mm sheet with
    the trigger at 190, the first page carries the header row (10-20), the
    first row (box and data cell 20-110, image 22-108), the second row's
    box (110-200) and image (112-198), and the footer (195-205).  The
    second row's data cell, asked for at 110-200, is not there: it is drawn
    at 10-100 on the second page. *)
Theorem second_data_cell_is_moved :
  result_map
    (fun pdf => (FPDF.page_h pdf, FPDF.page_break_trigger pdf,
                 map (map span) (FPDF.pages pdf)))
    (fst (generate_pdf two_photos "pic" empty_world))
  = Ok (210, 190,
        [ [ (10, 20); (10, 20); (20, 110); (22, 108); (20, 110);
            (110, 200); (112, 198); (195, 205) ];
          [ (10, 100) ] ])%Z.
Proof. vm_compute. reflexivity. Qed.

(** * Further properties of the program *)

(** ** The file system during a run *)

Definition staging_name (w : World) : string :=
  tmp_name (tmp_counter w) ".jpg".

(** The world after a row that went through: the staging file was
    created, written, read and removed. *)
Definition cleaned (w : World) : World :=
  {| files := delete (staging_name w) (files w);
     tmp_counter := S (tmp_counter w);
     jpeg_encode := jpeg_encode w |}.

(** The world after a row whose image failed at [Image.open], [convert]
    or [save]: the staging file was created and is still there. *)
Definition leaked (w : World) : World :=
  {| files := <[staging_name w := EmptyFile]> (files w);
     tmp_counter := S (tmp_counter w);
     jpeg_encode := jpeg_encode w |}.

Fixpoint world_after (images : list UploadedFile) (w : World) : World :=
  match images with
  | [] => w
  | f :: rest =>
      match prepare f with
      | Ok _ => world_after rest (cleaned w)
      | Raise _ => leaked w
      end
  end.

Lemma draw_row_full (img_file : UploadedFile) (pdf : FPDF.t) (w : World) :
  draw_row img_file pdf w
  = match staged (jpeg_encode w) img_file with
    | Ok info => (Ok (place_row info pdf), cleaned w)
    | Raise e => (Raise e, leaked w)
    end.
Proof.
  unfold draw_row, staged, prepare, decode, bind, NamedTemporaryFile,
    Image_open, convert_RGB, save_jpg, lift, bind, ret.
  destruct (up_open img_file) as [im|e]; simpl; [|reflexivity].
  destruct (im_rgb im) as [r|e]; simpl; [|reflexivity].
  unfold bind, lift.
  destruct (jpeg_check _) as [[]|e]; simpl; [|reflexivity].
  unfold image, os_remove, with_files; simpl.
  rewrite lookup_insert_eq; simpl.
  rewrite lookup_insert_eq; simpl.
  unfold cleaned, staging_name. rewrite !delete_insert_eq. reflexivity.
Qed.

Lemma staged_prepare (enc : PILImage -> list N) (f : UploadedFile) :
  match staged enc f, prepare f with
  | Ok _, Ok _ => True
  | Raise e1, Raise e2 => e1 = e2
  | _, _ => False
  end.
Proof. unfold staged. destruct (prepare f); simpl; auto. Qed.

Lemma for_rows_full (batch : list UploadedFile) :
  forall pdf w,
    for_ batch draw_row pdf w
    = (fold_result batch (render_row (jpeg_encode w)) pdf,
       world_after batch w).
Proof.
  induction batch as [|f batch IH]; intros pdf w; [reflexivity|].
  cbn [for_ fold_result world_after]. unfold bind.
  rewrite draw_row_full. unfold render_row.
  pose proof (staged_prepare (jpeg_encode w) f) as Hsd.
  destruct (staged (jpeg_encode w) f) as [info|e], (prepare f) as [im|e'];
    try contradiction; simpl.
  - rewrite IH. reflexivity.
  - reflexivity.
Qed.

Lemma world_after_app (l1 l2 : list UploadedFile) (w : World) :
  world_after (l1 ++ l2) w
  = if forallb (fun f => is_ok (prepare f)) l1
    then world_after l2 (world_after l1 w)
    else world_after l1 w.
Proof.
  revert w. induction l1 as [|f l1 IH]; intros w; [reflexivity|].
  simpl. destruct (prepare f); simpl; [apply IH | reflexivity].
Qed.

Lemma fold_result_rows_ok (enc : PILImage -> list N)
    (batch : list UploadedFile) (pdf : FPDF.t) :
  is_ok (fold_result batch (render_row enc) pdf)
  = forallb (fun f => is_ok (prepare f)) batch.
Proof.
  revert pdf. induction batch as [|f batch IH]; intros pdf; [reflexivity|].
  simpl. unfold render_row.
  pose proof (staged_prepare enc f) as Hsd.
  destruct (staged enc f), (prepare f); try contradiction; simpl; auto.
Qed.

Lemma jpeg_encode_world_after (images : list UploadedFile) (w : World) :
  jpeg_encode (world_after images w) = jpeg_encode w.
Proof.
  revert w. induction images as [|f images IH]; intros w; [reflexivity|].
  simpl. destruct (prepare f); [rewrite IH|]; reflexivity.
Qed.

Lemma draw_chunk_full (label : string) (batch : list UploadedFile)
    (pdf : FPDF.t) (w : World) :
  draw_chunk label batch pdf w
  = (render_chunk (jpeg_encode w) label batch pdf, world_after batch w).
Proof. unfold draw_chunk, render_chunk. apply for_rows_full. Qed.

Lemma render_chunk_ok (enc : PILImage -> list N) (label : string)
    (batch : list UploadedFile) (pdf : FPDF.t) :
  is_ok (render_chunk enc label batch pdf)
  = forallb (fun f => is_ok (prepare f)) batch.
Proof. unfold render_chunk. apply fold_result_rows_ok. Qed.

Lemma for_chunks_full (label : string) (chunks : list (list UploadedFile)) :
  forall pdf w,
    for_ chunks (draw_chunk label) pdf w
    = (fold_result chunks (render_chunk (jpeg_encode w) label) pdf,
       world_after (concat chunks) w).
Proof.
  induction chunks as [|batch chunks IH]; intros pdf w; [reflexivity|].
  cbn [for_ fold_result concat]. unfold bind.
  rewrite draw_chunk_full, world_after_app.
  rewrite <- (render_chunk_ok (jpeg_encode w) label batch pdf).
  destruct (render_chunk (jpeg_encode w) label batch pdf) as [pdf'|e]; simpl.
  - rewrite IH, jpeg_encode_world_after. reflexivity.
  - reflexivity.
Qed.

Lemma concat_chunks2 {A} (l : list A) : concat (chunks2 l) = l.
Proof.
  induction l as [| a | a b r IH] using pair_induction; simpl;
    congruence.
Qed.

(** [generate_pdf], result and world. *)
Lemma generate_pdf_full (images : list UploadedFile) (label : string)
    (w : World) :
  generate_pdf images label w
  = (render (jpeg_encode w) images label, world_after images w).
Proof.
  rewrite generate_pdf_chunks, for_chunks_full, concat_chunks2. reflexivity.
Qed.

Lemma world_after_stageable (images : list UploadedFile) :
  Forall stageable images ->
  forall w,
    tmp_counter (world_after images w)
    = (tmp_counter w + length images)%nat /\
    forall path,
      files w !! path = None \/
      (exists k, (k < length images)%nat /\
                 path = tmp_name (tmp_counter w + k) ".jpg") ->
      files (world_after images w) !! path = None.
Proof.
  induction 1 as [|f images Hf _ IH]; intros w.
  - simpl. split; [lia|]. intros path [Hnone | (k & Hk & _)];
      [exact Hnone | lia].
  - unfold stageable in Hf. cbn [world_after length].
    destruct (prepare f) as [im|e]; [|discriminate].
    destruct (IH (cleaned w)) as [Hcount Hgone]. cbn [cleaned tmp_counter] in *.
    split; [lia|]. intros path Hpath. apply Hgone.
    cbn [cleaned files]. rewrite lookup_delete.
    destruct (decide (staging_name w = path)) as [Heq|Hne]; [left; reflexivity|].
    destruct Hpath as [Hnone | (k & Hk & ->)]; [left; exact Hnone|].
    destruct k as [|k].
    + exfalso. apply Hne. unfold staging_name.
      rewrite Nat.add_0_r. reflexivity.
    + right. exists k. split; [lia|]. f_equal. lia.
Qed.

Lemma world_after_frame (images : list UploadedFile) (path : string) :
  forall w,
    (forall k, (k < length images)%nat ->
               path <> tmp_name (tmp_counter w + k) ".jpg") ->
    files (world_after images w) !! path = files w !! path.
Proof.
  induction images as [|f images IH]; intros w Hpath; [reflexivity|].
  assert (staging_name w <> path) as Hne.
  { intros <-. apply (Hpath 0%nat); [simpl; lia|].
    unfold staging_name. rewrite Nat.add_0_r. reflexivity. }
  cbn [world_after]. destruct (prepare f) as [im|e].
  - rewrite IH.
    + cbn [cleaned files]. apply lookup_delete_ne. exact Hne.
    + intros k Hk. cbn [cleaned tmp_counter].
      replace (S (tmp_counter w) + k)%nat with (tmp_counter w + S k)%nat by lia.
      apply Hpath. simpl. lia.
  - cbn [leaked files]. apply lookup_insert_ne. exact Hne.
Qed.

(** A world with a file of the user's and some temporary names already
    taken. *)
Definition busy_world : World :=
  {| files := {[ "/home/user/notes.pdf" := PdfFile [] ]};
     tmp_counter := 7;
     jpeg_encode := fun im => [255; 216; 255; 217]%N |}.

(** X1.  Whatever the uploads and whether the run succeeds or fails,
    [generate_pdf] only ever creates, writes or removes its own staging
    files: a path that is none of the names [tmp_name (c + k) ".jpg"],
    [k < len(images)], handed out from the counter [c] of the world it
    starts in, has the same content (or absence) before and after. *)
Theorem generate_pdf_touches_only_staging_files
    (images : list UploadedFile) (label : string) (w : World) (path : string) :
  (forall k, (k < length images)%nat ->
             path <> tmp_name (tmp_counter w + k) ".jpg") ->
  files (snd (generate_pdf images label w)) !! path = files w !! path.
Proof.
  intros Hpath. rewrite generate_pdf_full. cbn [snd].
  apply world_after_frame. exact Hpath.
Qed.

Lemma generate_pdf_touches_only_staging_files_witness :
  (forall k, (k < length mixed_uploads)%nat ->
             "/home/user/notes.pdf" <> tmp_name (tmp_counter busy_world + k) ".jpg") /\
  files (snd (generate_pdf mixed_uploads "pic" busy_world))
    !! "/home/user/notes.pdf"
  = files busy_world !! "/home/user/notes.pdf".
Proof.
  assert (forall k, (k < length mixed_uploads)%nat ->
            "/home/user/notes.pdf"
            <> tmp_name (tmp_counter busy_world + k) ".jpg") as Hpath.
  { intros k Hk. unfold tmp_name. simpl. discriminate. }
  split; [exact Hpath|].
  apply (generate_pdf_touches_only_staging_files mixed_uploads "pic"
           busy_world "/home/user/notes.pdf").
  exact Hpath.
Defined.

(** X2.  When every upload can be staged (it decodes, converts and can be
    written as a JPEG), [generate_pdf] returns a document,
    has handed out exactly one temporary name per image, and has removed
    every staging file it created: none of those names exists
    afterwards. *)
Theorem staging_files_removed_on_success
    (images : list UploadedFile) (label : string) (w : World) :
  Forall stageable images ->
  exists pdf w',
    generate_pdf images label w = (Ok pdf, w') /\
    tmp_counter w' = (tmp_counter w + length images)%nat /\
    forall k, (k < length images)%nat ->
      files w' !! tmp_name (tmp_counter w + k) ".jpg" = None.
Proof.
  intros Hall.
  destruct (generate_pdf_ok images label w Hall)
    as (pdf & w' & infos & Hrun & _ & _).
  exists pdf, w'. split; [exact Hrun|].
  rewrite generate_pdf_full in Hrun. injection Hrun as _ <-.
  destruct (world_after_stageable images Hall w) as [Hcount Hgone].
  split; [exact Hcount|]. intros k Hk. apply Hgone. right. eauto.
Qed.

Lemma staging_files_removed_on_success_witness :
  Forall stageable three_photos /\
  exists pdf w',
    generate_pdf three_photos "pic" busy_world = (Ok pdf, w') /\
    tmp_counter w' = (tmp_counter busy_world + length three_photos)%nat /\
    forall k, (k < length three_photos)%nat ->
      files w' !! tmp_name (tmp_counter busy_world + k) ".jpg" = None.
Proof.
  assert (Forall stageable three_photos) as Hall by (repeat constructor).
  split; [exact Hall|].
  apply (staging_files_removed_on_success three_photos "pic" busy_world).
  exact Hall.
Defined.

Lemma stage_all_first_failure (enc : PILImage -> list N)
    (good : list UploadedFile) (f : UploadedFile) (rest : list UploadedFile)
    (e : Exception) :
  Forall stageable good -> prepare f = Raise e ->
  stage_all enc (good ++ f :: rest) = Raise e.
Proof.
  intros Hgood Hf. induction Hgood as [|g good Hg _ IH]; simpl.
  - unfold staged. rewrite Hf. reflexivity.
  - unfold stageable in Hg. unfold staged.
    destruct (prepare g); [|discriminate]. simpl. rewrite IH. reflexivity.
Qed.

Lemma forallb_stageable (l : list UploadedFile) :
  Forall stageable l -> forallb (fun f => is_ok (prepare f)) l = true.
Proof.
  induction 1 as [|f l Hf _ IH]; [reflexivity|].
  simpl. rewrite Hf, IH. reflexivity.
Qed.

(** X3.  The build stops at the first upload that cannot be staged (it
    fails at [Image.open], at [convert] or at [save]): the exception
    raised is that upload's, and the uploads after it are never opened or
    staged, so result and world are those of the run without them. *)
Theorem generate_pdf_stops_at_first_failure
    (good : list UploadedFile) (f : UploadedFile) (rest : list UploadedFile)
    (e : Exception) (label : string) (w : World) :
  Forall stageable good -> prepare f = Raise e ->
  fst (generate_pdf (good ++ f :: rest) label w) = Raise e /\
  generate_pdf (good ++ f :: rest) label w
  = generate_pdf (good ++ [f]) label w.
Proof.
  intros Hgood Hf.
  assert (forall tail,
            generate_pdf (good ++ f :: tail) label w
            = (Raise e, leaked (world_after good w))) as Hrun.
  { intros tail. rewrite generate_pdf_full. f_equal.
    - pose proof (render_spec (jpeg_encode w) (good ++ f :: tail) label) as H.
      rewrite (stage_all_first_failure _ _ _ _ _ Hgood Hf) in H. exact H.
    - rewrite world_after_app, (forallb_stageable _ Hgood).
      simpl. rewrite Hf. reflexivity. }
  rewrite (Hrun rest), (Hrun []). split; reflexivity.
Qed.

Lemma generate_pdf_stops_at_first_failure_witness :
  (Forall stageable [photo "a.png" RGBA (640, 480)%N] /\
   prepare (truncated "b.jpg") = Raise "image file is truncated") /\
  fst (generate_pdf mixed_uploads "pic" busy_world)
  = Raise "image file is truncated" /\
  generate_pdf mixed_uploads "pic" busy_world
  = generate_pdf ([photo "a.png" RGBA (640, 480)%N] ++ [truncated "b.jpg"])
      "pic" busy_world.
Proof.
  assert (Forall stageable [photo "a.png" RGBA (640, 480)%N]) as Hgood
    by (repeat constructor).
  assert (prepare (truncated "b.jpg") = Raise "image file is truncated") as Hf
    by reflexivity.
  split; [split; assumption|].
  apply (generate_pdf_stops_at_first_failure
           [photo "a.png" RGBA (640, 480)%N] (truncated "b.jpg")
           [not_an_image "c.png"] "image file is truncated" "pic" busy_world);
    assumption.
Defined.

(** ** The batches *)

(** X4.  The loop over [range(0, len(images), 2)] with
    [batch = images[i:i+2]] cuts the input into consecutive batches: put
    end to end they are the input, in order; there are as many as half
    the number of images, rounded up; each holds one or two images. *)
Theorem batches_partition_input (images : list UploadedFile) :
  concat (map (fun i => slice images i (i + 2))
              (py_range 0 (length images) 2)) = images /\
  length (py_range 0 (length images) 2) = ((length images + 1) / 2)%nat /\
  Forall (fun batch => (1 <= length batch <= 2)%nat)
         (map (fun i => slice images i (i + 2))
              (py_range 0 (length images) 2)).
Proof.
  split; [|split].
  - rewrite slices_chunks2. apply concat_chunks2.
  - unfold py_range. rewrite length_map, length_seq. f_equal. lia.
  - rewrite slices_chunks2.
    induction images as [| a | a b r IH] using pair_induction; simpl.
    + constructor.
    + constructor; [simpl; lia | constructor].
    + constructor; [simpl; lia | exact IH].
Qed.

(** ** The artifact *)

(** The footer is the cell drawn 15 mm above the bottom edge. *)
Definition is_footer_cell (op : DrawOp) : bool :=
  match op with
  | OpCell _ y _ _ _ _ _ => (y =? 210 - 15)%Z
  | _ => false
  end.

Definition footers (p : Page) : list DrawOp := List.filter is_footer_cell p.

(** Page number [k] (counted from 0) ends with the footer "Page k+1" and
    has no other footer. *)
Definition footed (k : nat) (p : Page) : Prop :=
  exists body, p = body ++ [footer_op (S k)] /\ footers body = [].

Definition all_footed (doc : list Page) : Prop :=
  forall k p, doc !! k = Some p -> footed k p.

(** A document being written: every page but the last is closed. *)
Definition open_doc (doc : list Page) : Prop :=
  doc = [] \/
  exists qs q, doc = qs ++ [q] /\ all_footed qs /\ footers q = [].

(** Inside the sheet and its side and top margins. *)
Definition on_sheet (op : DrawOp) : Prop :=
  match op with
  | OpCell x y w h _ _ _ | OpRect x y w h | OpImage x y w h _ =>
      (margin <= x /\ x + w <= 297 - margin /\ margin <= y /\ y + h <= 210)%Z
  end.

Lemma build_pdf_bytes_ok (images : list UploadedFile) (label : string)
    (w : World) :
  Forall stageable images -> latin1 label = true ->
  exists infos,
    Forall2 (fun f info => staged (jpeg_encode w) f = Ok info) images infos /\
    build_pdf_bytes images label w
    = (Ok (PdfFile (closed (sheets label infos))),
       {| files :=
            <[tmp_name (tmp_counter w + length images) ".pdf"
              := PdfFile (closed (sheets label infos))]>
              (files (world_after images w));
          tmp_counter := S (tmp_counter w + length images);
          jpeg_encode := jpeg_encode w |}).
Proof.
  intros Hall Hlabel.
  destruct (stage_all_Forall2 (jpeg_encode w) images Hall)
    as (infos & Hstage & Hrel).
  exists infos. split; [exact Hrel|].
  pose proof (render_spec (jpeg_encode w) images label) as Hr.
  rewrite Hstage in Hr. destruct Hr as (s & x & y & Hr & Hat).
  destruct (world_after_stageable images Hall w) as [Hcount _].
  unfold build_pdf_bytes, bind. rewrite generate_pdf_full, Hr.
  unfold NamedTemporaryFile, output, read_file, ret, with_files.
  cbn [files tmp_counter jpeg_encode].
  rewrite (close_at _ _ _ _ Hat), latin1_closed_sheets, Hlabel.
  cbn [orb files]. rewrite lookup_insert_eq.
  rewrite Hcount, jpeg_encode_world_after.
  rewrite insert_insert_eq. reflexivity.
Qed.

Lemma all_footed_snoc (qs : list Page) (q : Page) :
  all_footed qs -> footed (length qs) q -> all_footed (qs ++ [q]).
Proof.
  intros Hqs Hq k p Hk. apply lookup_app_Some in Hk as [Hk | [Hge Hk]].
  - apply Hqs. exact Hk.
  - destruct (k - length qs)%nat as [|d] eqn:Hd; [|destruct d; discriminate].
    injection Hk as <-. replace k with (length qs) by lia. exact Hq.
Qed.

Lemma all_footed_close_last (doc : list Page) :
  open_doc doc -> all_footed (close_last doc).
Proof.
  intros [-> | (qs & q & -> & Hqs & Hq)].
  - intros k p Hk. discriminate.
  - rewrite close_last_snoc. apply all_footed_snoc; [exact Hqs|].
    exists q. split; [reflexivity | exact Hq].
Qed.

Lemma sheets_from_open (label : string) (infos : list JpegInfo) :
  forall ps, open_doc ps -> open_doc (sheets_from label infos ps).
Proof.
  induction infos as [| a | a b r IH] using pair_induction; intros ps Hps.
  - exact Hps.
  - rewrite sheets_from_one. right.
    exists (close_last ps), (half_page label a).
    split; [reflexivity|]. split; [|reflexivity].
    apply all_footed_close_last. exact Hps.
  - rewrite sheets_from_two. apply IH. right.
    exists (close_last ps ++ [full_page label a b (S (length ps))]), spill_page.
    split; [rewrite <- app_assoc; reflexivity|]. split; [|reflexivity].
    apply all_footed_snoc; [apply all_footed_close_last; exact Hps|].
    rewrite length_close_last.
    exists (header_row label ++
            [image_box 20; picture 20 a; data_cell 20;
             image_box 110; picture 110 b]).
    split; reflexivity.
Qed.

Lemma closed_all_footed (label : string) (infos : list JpegInfo) :
  all_footed (closed (sheets label infos)).
Proof.
  unfold closed. apply all_footed_close_last.
  pose proof (sheets_from_open label infos [] (or_introl eq_refl)) as Hopen.
  fold (sheets label infos) in Hopen.
  destruct (sheets label infos) eqn:E; [|exact Hopen].
  right. exists [], []. split; [reflexivity|]. split; [|reflexivity].
  intros k p Hk. discriminate.
Qed.

Lemma length_closed_sheets (label : string) (infos : list JpegInfo) :
  length (closed (sheets label infos)) = max 1 (length infos).
Proof.
  unfold closed. rewrite length_close_last.
  pose proof (sheets_from_length label infos []) as Hlen.
  fold (sheets label infos) in Hlen. simpl in Hlen.
  destruct (sheets label infos) eqn:E; simpl in *; lia.
Qed.

(** X5.  When every upload can be staged (it decodes, converts and can be
    written as a JPEG) and the label is within latin-1, the artifact the script reads back
    has one page per image (a single page when there is no image), and
    each of its pages ends with the footer cell "Page k", [k] being the
    page's number from 1, drawn 15 mm above the bottom edge across the
    width between the margins; no page carries a second footer. *)
Theorem artifact_pages_are_numbered (images : list UploadedFile)
    (label : string) (w : World) :
  Forall stageable images -> latin1 label = true ->
  exists doc w',
    build_pdf_bytes images label w = (Ok (PdfFile doc), w') /\
    length doc = max 1 (length images) /\
    forall k p, doc !! k = Some p ->
      last p = Some (OpCell 10 195 277 10 ("Page " +:+ pretty (S k)) false "C") /\
      length (footers p) = 1%nat.
Proof.
  intros Hall Hlabel.
  destruct (build_pdf_bytes_ok images label w Hall Hlabel) as (infos & Hrel & Hrun).
  eexists _, _. split; [exact Hrun|]. split.
  - rewrite length_closed_sheets. f_equal. symmetry.
    eapply Forall2_length. exact Hrel.
  - intros k p Hk.
    destruct (closed_all_footed label infos k p Hk) as (body & -> & Hbody).
    split; [apply last_snoc|].
    unfold footers in *. rewrite List.filter_app, Hbody. reflexivity.
Qed.

Lemma artifact_pages_are_numbered_witness :
  (Forall stageable three_photos /\ latin1 "pic" = true) /\
  exists doc w',
    build_pdf_bytes three_photos "pic" busy_world = (Ok (PdfFile doc), w') /\
    length doc = max 1 (length three_photos) /\
    forall k p, doc !! k = Some p ->
      last p = Some (OpCell 10 195 277 10 ("Page " +:+ pretty (S k)) false "C") /\
      length (footers p) = 1%nat.
Proof.
  assert (Forall stageable three_photos) as Hall by (repeat constructor).
  split; [split; [exact Hall | reflexivity]|].
  apply (artifact_pages_are_numbered three_photos "pic" busy_world);
    [exact Hall | reflexivity].
Defined.

(** A property of pages that survives the footer and holds of the empty
    page and of the three kinds of page holds of every page of the
    artifact. *)
Lemma closed_sheets_Forall (Q : Page -> Prop) (label : string)
    (infos : list JpegInfo) :
  (forall p n, Q p -> Q (p ++ [footer_op n])) ->
  Q [] ->
  (forall a, Q (half_page label a)) ->
  (forall a b n, Q (full_page label a b n)) ->
  Q spill_page ->
  Forall Q (closed (sheets label infos)).
Proof.
  intros Hfoot Hnil Hhalf Hfull Hspill. unfold closed.
  apply Forall_close_last; [exact Hfoot|].
  pose proof (sheets_from_Forall Q label Hfoot Hhalf Hfull Hspill infos []
                (Forall_nil_2 Q)) as Hall.
  fold (sheets label infos) in Hall.
  destruct (sheets label infos); [|exact Hall].
  constructor; [exact Hnil | constructor].
Qed.

(** ** Rows, header and sheet *)

(** X6.  When every upload can be staged (it decodes, converts and can be
    written as a JPEG) and the label is within latin-1, on every page of the artifact the
    image rows are, in drawing order, none, or the box at the top offset
    (10, 20), or that box followed by the box one row height below it, at
    (10, 110); each box is 80 x 90.  No page has a third row, and no row
    sits anywhere else. *)
Theorem rows_sit_at_20_and_110 (images : list UploadedFile) (label : string)
    (w : World) :
  Forall stageable images -> latin1 label = true ->
  exists doc w',
    build_pdf_bytes images label w = (Ok (PdfFile doc), w') /\
    forall p, In p doc ->
      image_rows p = [] \/
      image_rows p = [OpRect 10 20 80 90] \/
      image_rows p = [OpRect 10 20 80 90; OpRect 10 110 80 90].
Proof.
  intros Hall Hlabel.
  destruct (build_pdf_bytes_ok images label w Hall Hlabel) as (infos & Hrel & Hrun).
  eexists _, _. split; [exact Hrun|].
  intros p Hin. apply list_elem_of_In in Hin. revert p Hin.
  apply Forall_forall. apply closed_sheets_Forall.
  - intros p n Hp. unfold image_rows in *.
    rewrite List.filter_app. simpl. rewrite app_nil_r. exact Hp.
  - left. reflexivity.
  - intros a. right. left. reflexivity.
  - intros a b n. right. right. reflexivity.
  - left. reflexivity.
Qed.

Lemma rows_sit_at_20_and_110_witness :
  (Forall stageable three_photos /\ latin1 "pic" = true) /\
  exists doc w',
    build_pdf_bytes three_photos "pic" busy_world = (Ok (PdfFile doc), w') /\
    forall p, In p doc ->
      image_rows p = [] \/
      image_rows p = [OpRect 10 20 80 90] \/
      image_rows p = [OpRect 10 20 80 90; OpRect 10 110 80 90].
Proof.
  assert (Forall stageable three_photos) as Hall by (repeat constructor).
  split; [split; [exact Hall | reflexivity]|].
  apply (rows_sit_at_20_and_110 three_photos "pic" busy_world);
    [exact Hall | reflexivity].
Defined.

(** X7.  When every upload can be staged (it decodes, converts and can be
    written as a JPEG) and the label is within latin-1, every page of the artifact that
    holds an image has a header row of exactly two cells, both 10 mm high
    at the top margin: the 80 mm label cell, centred, then the 190 mm
    cell reading "Notes / Data", left-aligned, both bordered.  A page
    without image has no header cell. *)
Theorem image_pages_have_the_header_row (images : list UploadedFile)
    (label : string) (w : World) :
  Forall stageable images -> latin1 label = true ->
  exists doc w',
    build_pdf_bytes images label w = (Ok (PdfFile doc), w') /\
    forall p, In p doc ->
      (page_infos p <> [] ->
       header_of p = [ OpCell 10 10 80 10 label true "C";
                       OpCell 90 10 190 10 "Notes / Data" true "L" ]) /\
      (page_infos p = [] -> header_of p = []).
Proof.
  intros Hall Hlabel.
  destruct (build_pdf_bytes_ok images label w Hall Hlabel) as (infos & Hrel & Hrun).
  eexists _, _. split; [exact Hrun|].
  intros p Hin. apply list_elem_of_In in Hin. revert p Hin.
  apply Forall_forall. apply closed_sheets_Forall.
  - intros p n [Hyes Hno]. rewrite header_of_snoc_footer.
    unfold footer_op. rewrite page_infos_snoc_cell. split; assumption.
  - split; [intros H; contradiction | reflexivity].
  - intros a. split; [reflexivity | discriminate].
  - intros a b n. split; [reflexivity | discriminate].
  - split; [intros H; contradiction | reflexivity].
Qed.

Lemma image_pages_have_the_header_row_witness :
  (Forall stageable two_photos /\ latin1 "Café n° 1" = true) /\
  exists doc w',
    build_pdf_bytes two_photos "Café n° 1" busy_world = (Ok (PdfFile doc), w') /\
    forall p, In p doc ->
      (page_infos p <> [] ->
       header_of p = [ OpCell 10 10 80 10 "Café n° 1" true "C";
                       OpCell 90 10 190 10 "Notes / Data" true "L" ]) /\
      (page_infos p = [] -> header_of p = []).
Proof.
  assert (Forall stageable two_photos) as Hall by (repeat constructor).
  split; [split; [exact Hall | reflexivity]|].
  apply (image_pages_have_the_header_row two_photos "Café n° 1" busy_world);
    [exact Hall | reflexivity].
Defined.

(** X8.  When every upload can be staged (it decodes, converts and can be
    written as a JPEG) and the label is within latin-1, nothing in the artifact is drawn off
    the sheet or in its left, right or top margin: every cell, box and
    image starts at least 10 mm from the left and top edges, ends at
    least 10 mm from the right edge of the 297 mm sheet, and ends above
    its 210 mm bottom edge. *)
Theorem nothing_is_drawn_off_the_sheet (images : list UploadedFile)
    (label : string) (w : World) :
  Forall stageable images -> latin1 label = true ->
  exists doc w',
    build_pdf_bytes images label w = (Ok (PdfFile doc), w') /\
    forall p op, In p doc -> In op p -> on_sheet op.
Proof.
  intros Hall Hlabel.
  destruct (build_pdf_bytes_ok images label w Hall Hlabel) as (infos & Hrel & Hrun).
  eexists _, _. split; [exact Hrun|].
  assert (Forall (Forall on_sheet) (closed (sheets label infos))) as Hdoc.
  { apply closed_sheets_Forall.
    - intros p n Hp. apply Forall_app. split; [exact Hp|].
      constructor; [|constructor]. unfold footer_op, on_sheet, margin. lia.
    - constructor.
    - intros a. unfold half_page, header_row, image_box, picture, data_cell.
      repeat constructor; unfold margin; lia.
    - intros a b n.
      unfold full_page, header_row, image_box, picture, data_cell, footer_op.
      repeat constructor; unfold margin; lia.
    - unfold spill_page, data_cell. repeat constructor; unfold margin; lia. }
  intros p op Hp Hop. apply list_elem_of_In in Hp, Hop.
  rewrite Forall_forall in Hdoc. specialize (Hdoc p Hp).
  rewrite Forall_forall in Hdoc. apply Hdoc. exact Hop.
Qed.

Lemma nothing_is_drawn_off_the_sheet_witness :
  (Forall stageable three_photos /\ latin1 "pic" = true) /\
  exists doc w',
    build_pdf_bytes three_photos "pic" busy_world = (Ok (PdfFile doc), w') /\
    forall p op, In p doc -> In op p -> on_sheet op.
Proof.
  assert (Forall stageable three_photos) as Hall by (repeat constructor).
  split; [split; [exact Hall | reflexivity]|].
  apply (nothing_is_drawn_off_the_sheet three_photos "pic" busy_world);
    [exact Hall | reflexivity].
Defined.

(** ** The page shown after a successful build *)

(** X9.  With at least one upload, all of them stageable (each decodes,
    converts and can be written as a JPEG), a column header within
    latin-1, and the button pressed, the run ends with the download button, the only one on the
    page, and shows no error.  The button carries the document exactly as
    it was written to the temporary [.pdf] file, under the name
    "landscape_photos.pdf" and the type "application/pdf"; that document
    has one page per upload, and the page also reports the number of
    uploads. *)
Theorem script_offers_the_written_document (col_header : string)
    (uploaded_files : list UploadedFile) (w : World) :
  uploaded_files <> [] ->
  Forall stageable uploaded_files ->
  latin1 col_header = true ->
  exists doc,
    last (fst (script col_header uploaded_files true w))
    = Some (st_download_button "📥 Download PDF" (PdfFile doc)
              "landscape_photos.pdf" "application/pdf") /\
    downloads (fst (script col_header uploaded_files true w)) = [PdfFile doc] /\
    errors (fst (script col_header uploaded_files true w)) = [] /\
    In (st_success ("Uploaded " +:+ pretty (length uploaded_files)
                    +:+ " images."))
       (fst (script col_header uploaded_files true w)) /\
    files (snd (script col_header uploaded_files true w))
      !! tmp_name (tmp_counter w + length uploaded_files) ".pdf"
    = Some (PdfFile doc) /\
    length doc = length uploaded_files.
Proof.
  intros Hne Hall Hlabel.
  destruct (build_pdf_bytes_ok uploaded_files col_header w Hall Hlabel)
    as (infos & Hrel & Hrun).
  exists (closed (sheets col_header infos)).
  unfold script. destruct uploaded_files as [|u us]; [contradiction|].
  rewrite Hrun. cbn [fst snd files].
  repeat split.
  - simpl. auto 10.
  - apply lookup_insert_eq.
  - rewrite length_closed_sheets.
    apply Forall2_length in Hrel. rewrite <- Hrel. simpl. lia.
Qed.

Lemma script_offers_the_written_document_witness :
  (two_photos <> [] /\ Forall stageable two_photos /\ latin1 "pic" = true) /\
  exists doc,
    last (fst (script "pic" two_photos true busy_world))
    = Some (st_download_button "📥 Download PDF" (PdfFile doc)
              "landscape_photos.pdf" "application/pdf") /\
    downloads (fst (script "pic" two_photos true busy_world)) = [PdfFile doc] /\
    errors (fst (script "pic" two_photos true busy_world)) = [] /\
    In (st_success ("Uploaded " +:+ pretty (length two_photos)
                    +:+ " images."))
       (fst (script "pic" two_photos true busy_world)) /\
    files (snd (script "pic" two_photos true busy_world))
      !! tmp_name (tmp_counter busy_world + length two_photos) ".pdf"
    = Some (PdfFile doc) /\
    length doc = length two_photos.
Proof.
  assert (two_photos <> []) as Hne by discriminate.
  assert (Forall stageable two_photos) as Hall by (repeat constructor).
  split; [repeat split; assumption|].
  apply (script_offers_the_written_document "pic" two_photos busy_world);
    [assumption | assumption | reflexivity].
Defined.

(** ** Geometry and the number of images *)

Lemma geometry_sheets_from_labels (label1 label2 : string)
    (infos1 : list JpegInfo) :
  forall infos2 ps1 ps2,
    length infos1 = length infos2 ->
    geometry ps1 = geometry ps2 ->
    geometry (sheets_from label1 infos1 ps1)
    = geometry (sheets_from label2 infos2 ps2).
Proof.
  induction infos1 as [| a | a b r IH] using pair_induction;
    intros infos2 ps1 ps2 Hlen Hps.
  - destruct infos2; [exact Hps | discriminate].
  - destruct infos2 as [|a' [|]]; try discriminate.
    rewrite !sheets_from_one, !geometry_app.
    rewrite (geometry_close_last _ _ Hps). reflexivity.
  - destruct infos2 as [|a' [|b' r']]; try discriminate.
    rewrite !sheets_from_two. apply IH.
    + simpl in Hlen. lia.
    + rewrite !geometry_app, (geometry_close_last _ _ Hps).
      rewrite (geometry_length _ _ Hps). reflexivity.
Qed.

(** X10.  The geometry of the artifact depends on the number of images
    only: two builds over stageable uploads (each decodes, converts and
    can be written as a JPEG) of the same number, whatever the images
    (content, mode, pixel size within 65500), the labels within latin-1
    and the worlds,
    give artifacts with the same pages and, operation by operation, the
    same kinds of cell at the same coordinates. *)
Theorem geometry_depends_on_the_count_only
    (images1 images2 : list UploadedFile) (label1 label2 : string)
    (w1 w2 : World) :
  Forall stageable images1 -> Forall stageable images2 ->
  latin1 label1 = true -> latin1 label2 = true ->
  length images1 = length images2 ->
  exists doc1 doc2 w1' w2',
    build_pdf_bytes images1 label1 w1 = (Ok (PdfFile doc1), w1') /\
    build_pdf_bytes images2 label2 w2 = (Ok (PdfFile doc2), w2') /\
    geometry doc1 = geometry doc2.
Proof.
  intros Hall1 Hall2 Hl1 Hl2 Hlen.
  destruct (build_pdf_bytes_ok images1 label1 w1 Hall1 Hl1)
    as (infos1 & Hrel1 & Hrun1).
  destruct (build_pdf_bytes_ok images2 label2 w2 Hall2 Hl2)
    as (infos2 & Hrel2 & Hrun2).
  eexists _, _, _, _. split; [exact Hrun1|]. split; [exact Hrun2|].
  apply geometry_closed. apply geometry_sheets_from_labels; [|reflexivity].
  apply Forall2_length in Hrel1, Hrel2. lia.
Qed.

Lemma geometry_depends_on_the_count_only_witness :
  (Forall stageable two_photos /\
   Forall stageable [photo "x.jpg" L (10, 10)%N; photo "y.png" P (4000, 50)%N] /\
   latin1 "pic" = true /\ latin1 "Item #1 (front)" = true /\
   length two_photos
   = length [photo "x.jpg" L (10, 10)%N; photo "y.png" P (4000, 50)%N]) /\
  exists doc1 doc2 w1' w2',
    build_pdf_bytes two_photos "pic" empty_world = (Ok (PdfFile doc1), w1') /\
    build_pdf_bytes [photo "x.jpg" L (10, 10)%N; photo "y.png" P (4000, 50)%N]
      "Item #1 (front)" busy_world = (Ok (PdfFile doc2), w2') /\
    geometry doc1 = geometry doc2.
Proof.
  assert (Forall stageable two_photos) as H1 by (repeat constructor).
  assert (Forall stageable
            [photo "x.jpg" L (10, 10)%N; photo "y.png" P (4000, 50)%N]) as H2
    by (repeat constructor).
  split; [repeat split; assumption|].
  apply (geometry_depends_on_the_count_only two_photos
           [photo "x.jpg" L (10, 10)%N; photo "y.png" P (4000, 50)%N]
           "pic" "Item #1 (front)" empty_world busy_world);
    [exact H1 | exact H2 | reflexivity | reflexivity | reflexivity].
Defined.

(** ** Every row keeps its cells *)

Lemma filter_concat_close_last (keep : DrawOp -> bool) (ps : list Page) :
  (forall n, keep (footer_op n) = false) ->
  List.filter keep (concat (close_last ps)) = List.filter keep (concat ps).
Proof.
  intros Hfoot.
  destruct (snoc_cases ps) as [-> | (qs & q & ->)]; [reflexivity|].
  rewrite close_last_snoc, !concat_app, !List.filter_app. f_equal.
  simpl. rewrite !app_nil_r, List.filter_app. simpl.
  rewrite Hfoot. apply app_nil_r.
Qed.

Lemma filter_concat_closed (keep : DrawOp -> bool) (doc : list Page) :
  (forall n, keep (footer_op n) = false) ->
  List.filter keep (concat (closed doc)) = List.filter keep (concat doc).
Proof.
  intros Hfoot. unfold closed. rewrite filter_concat_close_last by exact Hfoot.
  destruct doc; reflexivity.
Qed.

(** X11.  When every upload can be staged (it decodes, converts and can be
    written as a JPEG) and the label is within latin-1, the artifact holds, over all its
    pages, exactly one image box and exactly one data cell per upload, and
    every data cell is the bordered, empty 190 x 90 cell at the right of
    the image column: no row is dropped or drawn twice, and the notes
    cell is never filled in. *)
Theorem every_image_has_its_box_and_data_cell (images : list UploadedFile)
    (label : string) (w : World) :
  Forall stageable images -> latin1 label = true ->
  exists doc w',
    build_pdf_bytes images label w = (Ok (PdfFile doc), w') /\
    length (image_rows (concat doc)) = length images /\
    length (data_cells (concat doc)) = length images /\
    forall op, In op (data_cells (concat doc)) ->
      exists y, op = OpCell 90 y 190 90 "" true "".
Proof.
  intros Hall Hlabel.
  destruct (build_pdf_bytes_ok images label w Hall Hlabel) as (infos & Hrel & Hrun).
  eexists _, _. split; [exact Hrun|].
  apply Forall2_length in Hrel.
  assert (exists ys,
            data_cells (concat (closed (sheets label infos)))
            = map data_cell ys /\ length ys = length infos) as (ys & Hd & Hys).
  { unfold data_cells, sheets.
    rewrite filter_concat_closed by reflexivity.
    assert (forall l ps,
              exists ys,
                List.filter is_data_cell (concat (sheets_from label l ps))
                = List.filter is_data_cell (concat ps) ++ map data_cell ys /\
                length ys = length l) as Hgen.
    { induction l as [| a | a b r IH] using pair_induction; intros ps.
      - exists []. rewrite sheets_from_nil, app_nil_r. auto.
      - exists [20%Z]. rewrite sheets_from_one, concat_app, List.filter_app.
        rewrite filter_concat_close_last by reflexivity. auto.
      - destruct (IH (close_last ps ++
                      [full_page label a b (S (length ps)); spill_page]))
          as (ys & Hys & Hlen).
        exists (20%Z :: 10%Z :: ys). rewrite sheets_from_two, Hys.
        rewrite concat_app, List.filter_app.
        rewrite filter_concat_close_last by reflexivity.
        simpl. rewrite <- app_assoc. simpl. auto. }
    destruct (Hgen infos []) as (ys & Hys & Hlen). exists ys. auto. }
  assert (length (image_rows (concat (closed (sheets label infos))))
          = length infos) as Hboxes.
  { unfold image_rows, sheets.
    rewrite filter_concat_closed by reflexivity.
    assert (forall l ps,
              length (List.filter is_image_box
                        (concat (sheets_from label l ps)))
              = (length (List.filter is_image_box (concat ps))
                 + length l)%nat) as Hgen.
    { induction l as [| a | a b r IH] using pair_induction; intros ps.
      - rewrite sheets_from_nil. simpl. lia.
      - rewrite sheets_from_one, concat_app, List.filter_app, length_app.
        rewrite filter_concat_close_last by reflexivity. reflexivity.
      - rewrite sheets_from_two, IH, concat_app, List.filter_app, length_app.
        rewrite filter_concat_close_last by reflexivity. simpl. lia. }
    rewrite Hgen. reflexivity. }
  split; [lia|]. split.
  - rewrite Hd, length_map. lia.
  - intros op Hop. rewrite Hd in Hop. apply in_map_iff in Hop as (y & <- & _).
    exists y. reflexivity.
Qed.

Lemma every_image_has_its_box_and_data_cell_witness :
  (Forall stageable three_photos /\ latin1 "pic" = true) /\
  exists doc w',
    build_pdf_bytes three_photos "pic" busy_world = (Ok (PdfFile doc), w') /\
    length (image_rows (concat doc)) = length three_photos /\
    length (data_cells (concat doc)) = length three_photos /\
    forall op, In op (data_cells (concat doc)) ->
      exists y, op = OpCell 90 y 190 90 "" true "".
Proof.
  assert (Forall stageable three_photos) as Hall by (repeat constructor).
  split; [split; [exact Hall | reflexivity]|].
  apply (every_image_has_its_box_and_data_cell three_photos "pic" busy_world);
    [exact Hall | reflexivity].
Defined.

(** ** [add_page] and [footer] on any object *)

Section any_object.
Local Open Scope Z_scope.
Import FPDF.

Lemma footer_on_any_object (s : t) :
  in_footer s = true ->
  PDF.footer s
  = mk (page_w s) (page_h s) (l_margin s) (t_margin s) (r_margin s)
       (b_margin s) (auto_page_break s) (page_break_trigger s)
       (l_margin s + (page_w s - r_margin s - l_margin s)) (page_h s - 15)
       10 true (Some ("Arial", "I", 8))
       (out_page (pages s)
          (OpCell (l_margin s) (page_h s - 15)
             (page_w s - r_margin s - l_margin s) 10
             ("Page " +:+ pretty (page_no s)) false "C")).
Proof.
  destruct s as [pw ph lm tm rm bm au tr x y lh inf fn ps].
  cbn [in_footer]. intros ->.
  unfold PDF.footer, PDF.footer_in, cell_in, set_y, set_font, page_no, out.
  cbn [pages with_pages with_in_footer with_xy with_font with_lasth
       cur_x cur_y page_break_trigger in_footer auto_page_break
       page_w page_h l_margin r_margin negb].
  rewrite andb_false_r. cbn [andb].
  lazy -[pretty out_page app length Z.add].
  reflexivity.
Qed.

(** X12.  On any object, whatever its sheet size, margins, cursor and
    page-break trigger, [add_page] of the class closes the page being
    written with one footer cell ("Page n", 10 mm high, 15 mm above the
    bottom edge, from the left margin to the right margin) without ever
    breaking the page for it, then opens exactly one new page; [header]
    draws nothing on it, and the cursor is at the top-left margin. *)
Theorem add_page_footers_then_opens_an_empty_page (s : t) :
  pages (PDF.add_page s)
  = match pages s with
    | [] => []
    | _ =>
        out_page (pages s)
          (OpCell (l_margin s) (page_h s - 15)
             (page_w s - r_margin s - l_margin s) 10
             ("Page " +:+ pretty (page_no s)) false "C")
    end ++ [[]] /\
  cur_x (PDF.add_page s) = l_margin s /\
  cur_y (PDF.add_page s) = t_margin s.
Proof.
  unfold PDF.add_page, add_page_in.
  destruct (pages s) as [|p ps] eqn:Hps.
  - unfold page_no. rewrite Hps. cbn [length Nat.ltb Nat.leb].
    destruct s as [pw ph lm tm rm bm au tr x y lh inf fn qs].
    cbn [pages] in Hps. subst qs. destruct fn; repeat split.
  - unfold page_no at 1. rewrite Hps. cbn [length Nat.ltb Nat.leb].
    rewrite (footer_on_any_object (with_in_footer true s) eq_refl).
    destruct s as [pw ph lm tm rm bm au tr x y lh inf fn qs].
    cbn [pages] in Hps. subst qs. destruct fn; repeat split.
Qed.

End any_object.
